(** * mrec.item_similarity.recommender: ItemSimilarityRecommender

    A shallow embedding of [src/mrec/item_similarity/recommender.py] and the
    properties its specification states about it.

    Conventions of the embedding
    - scores and similarities (numpy float64 in the source) are rationals [Q];
      every comparison of the source ([v != 0], [f > 0], tuple ordering) is
      the corresponding decidable comparison on [Q].  Rounding, infinities
      and NaN have no counterpart here;
    - user and item indices and the [max_items] / [max_similar_items] counts
      are [nat] (Python's negative indices and negative slice bounds are
      outside the model);
    - a raised exception is the [Raise] case of the [result] monad;
    - the recommender object is a record holding the optional
      [similarity_matrix] attribute; the abstract method
      [compute_similarities] is a type class. *)

From Stdlib Require Import String.
From Stdlib Require Import List Arith Lia ZArith QArith Bool.
From Stdlib Require Import Permutation Sorted.
Import ListNotations.

Local Open Scope nat_scope.

(** ** Exceptions *)

Inductive exn : Type :=
| AttributeError (msg : string)
| IndexError
| ValueError
| Exception (msg : string).

Inductive result (A : Type) : Type :=
| Ok (a : A)
| Raise (e : exn).

Arguments Ok {A} a.
Arguments Raise {A} e.

Definition bind {A B : Type} (m : result A) (k : A -> result B) : result B :=
  match m with
  | Ok a => k a
  | Raise e => Raise e
  end.

Notation "x <- m ;; k" := (bind m (fun x => k))
  (at level 61, m at next level, right associativity).

(** [try: body except AttributeError: handler] *)
Definition try_except_AttributeError {A : Type} (body handler : result A) : result A :=
  match body with
  | Raise (AttributeError _) => handler
  | other => other
  end.

Fixpoint mapM {A B : Type} (f : A -> result B) (l : list A) : result (list B) :=
  match l with
  | [] => Ok []
  | a :: t => b <- f a ;; bs <- mapM f t ;; Ok (b :: bs)
  end.

(** ** Comparisons on scores *)

Definition Qltb (x y : Q) : bool :=
  match Qcompare x y with Lt => true | _ => false end.

Definition Qneqb (x y : Q) : bool := negb (Qeq_bool x y).

(** [v > 0] *)
Definition positive (v : Q) : bool := Qltb 0 v.

(** Python compares tuples lexicographically: [(v1,i1) <= (v2,i2)]. *)
Definition tuple_le (a b : Q * nat) : bool :=
  match Qcompare (fst a) (fst b) with
  | Lt => true
  | Eq => snd a <=? snd b
  | Gt => false
  end.

(** ** [sorted]

    Python's [sorted] is a stable sort.  With [reverse=True] the list is
    reversed, sorted (stably) and reversed again, so that equal elements
    keep their original relative order. *)

Section Sorted.
Context {A : Type} (le : A -> A -> bool).

Fixpoint insert (x : A) (l : list A) : list A :=
  match l with
  | [] => [x]
  | y :: t => if le x y then x :: y :: t else y :: insert x t
  end.

Definition sorted (l : list A) : list A := fold_right insert [] l.

Definition sorted_reverse (l : list A) : list A := rev (sorted (rev l)).
End Sorted.

(** [sorted(w, key=key, reverse=True)] *)
Definition sorted_by_key_reverse {A : Type} (key : A -> Q) (l : list A) : list A :=
  sorted_reverse (fun a b => Qle_bool (key a) (key b)) l.

(** ** numpy arrays

    A one-dimensional float array is a [list Q]. [enumerate] pairs every
    element with its position. *)

Definition ndarray := list Q.

Definition enumerate {A : Type} (l : list A) : list (nat * A) :=
  combine (seq 0 (length l)) l.

(** [w[i]] for an index produced from [w] itself *)
Definition item (w : ndarray) (i : nat) : Q := nth i w 0%Q.

(** [w.argsort()]: the indices of [w] in ascending order of value.  Equal
    values are kept in index order, which is what numpy's default sort does
    on short arrays (insertion sort); numpy itself leaves the order of equal
    elements unspecified. *)
Definition argsort (w : ndarray) : list nat :=
  map fst (sorted (fun a b => Qle_bool (snd a) (snd b)) (enumerate w)).

(** ** scipy.sparse matrices

    A matrix is its shape and, for every row, the stored entries of the row
    as [zip(indices, data)].  A stored entry may hold the value zero, and
    the same column may be stored twice; reading an entry sums what is
    stored at its position, as scipy does when it converts or multiplies. *)

Definition sparse_row := list (nat * Q).

Record csr_matrix : Type := mk_csr {
  shape : nat * nat;
  rows : list sparse_row
}.

Definition row_of (m : csr_matrix) (u : nat) : sparse_row := nth u (rows m) [].

(** [m.indices] and [m.data] *)
Definition indices (m : csr_matrix) : list nat := map fst (concat (rows m)).
Definition data (m : csr_matrix) : list Q := map snd (concat (rows m)).

(** the value at column [k] of a row *)
Definition row_get (row : sparse_row) (k : nat) : Q :=
  fold_right (fun p acc => if fst p =? k then (snd p + acc)%Q else acc) 0%Q row.

(** [m[u, k]] as a number *)
Definition entry (m : csr_matrix) (u k : nat) : Q := row_get (row_of m u) k.

(** [m[u]] and [m[u,:]]: a one-row matrix, [IndexError] out of range *)
Definition getrow (m : csr_matrix) (u : nat) : result csr_matrix :=
  if u <? fst (shape m)
  then Ok (mk_csr (1, snd (shape m)) [row_of m u])
  else Raise IndexError.

(** [m[a:b,:]]: slice bounds are clamped to the number of rows *)
Definition slice_rows (m : csr_matrix) (a b : nat) : csr_matrix :=
  let n := fst (shape m) in
  let start := min a n in
  let len := min b n - start in
  mk_csr (len, snd (shape m)) (firstn len (skipn start (rows m))).

(** [m.T] *)
Definition column (m : csr_matrix) (k : nat) : sparse_row :=
  flat_map (fun ir => map (fun p => (fst ir, snd p))
                          (filter (fun p => fst p =? k) (snd ir)))
           (enumerate (rows m)).

Definition transpose (m : csr_matrix) : csr_matrix :=
  mk_csr (snd (shape m), fst (shape m)) (map (column m) (seq 0 (snd (shape m)))).

(** entry [j] of the product of one row of [A] with [B]: the products of
    the stored entries that meet *)
Definition row_times (arow : sparse_row) (B : csr_matrix) (j : nat) : Q :=
  fold_right
    (fun ka acc =>
       fold_right (fun jb acc' => if fst jb =? j then (snd ka * snd jb + acc')%Q else acc')
                  acc (row_of B (fst ka)))
    0%Q arow.

(** the stored entries of a dense row: the non-zero ones *)
Definition sparsify (dense : list Q) : sparse_row :=
  filter (fun p => Qneqb (snd p) 0) (enumerate dense).

(** [A * B]; [ValueError] on a dimension mismatch *)
Definition matmul (A B : csr_matrix) : result csr_matrix :=
  if snd (shape A) =? fst (shape B)
  then Ok (mk_csr (fst (shape A), snd (shape B))
                  (map (fun arow => sparsify (map (row_times arow B) (seq 0 (snd (shape B)))))
                       (rows A)))
  else Raise ValueError.

(** [m.toarray()] and [.flatten()] *)
Definition toarray (m : csr_matrix) : list (list Q) :=
  map (fun row => map (row_get row) (seq 0 (snd (shape m)))) (rows m).

Definition flatten (a : list (list Q)) : ndarray := concat a.

(** [csr_matrix((data, idx), shape)] with [idx = [row, col]]: the
    coordinate triplets are checked against the shape ([ValueError] for a
    negative or too large index), entries given twice are summed, and every
    row is stored in column order. *)
Definition coo_in_bounds (shp : nat * nat) (rc : Z * Z) : bool :=
  ((0 <=? fst rc) && (fst rc <? Z.of_nat (fst shp)) &&
   (0 <=? snd rc) && (snd rc <? Z.of_nat (snd shp)))%Z.

Definition coo_values (trip : list ((Z * Z) * Q)) (i k : nat) : list Q :=
  map snd (filter (fun t => (fst (fst t) =? Z.of_nat i)%Z && (snd (fst t) =? Z.of_nat k)%Z) trip).

Definition coo_row (trip : list ((Z * Z) * Q)) (ncols i : nat) : sparse_row :=
  flat_map (fun k => match coo_values trip i k with
                     | [] => []
                     | vs => [(k, fold_right Qplus 0%Q vs)]
                     end)
           (seq 0 ncols).

Definition csr_from_coo (dat : list Q) (row col : list Z) (shp : nat * nat)
  : result csr_matrix :=
  let idx := combine row col in
  if forallb (coo_in_bounds shp) idx
  then Ok (mk_csr shp (map (coo_row (combine idx dat) (snd shp)) (seq 0 (fst shp))))
  else Raise ValueError.

(** ** [np.loadtxt] and column selection

    The file is the table of numbers on its lines.  [loadtxt] squeezes
    axes of length one, so a table with a single line (or a single column)
    does not come back two-dimensional, and [y[:,c]] then raises. *)

Inductive txt_array : Type :=
| Squeezed (values : list Q)
| Table (ncols : nat) (lines : list (list Q)).

Definition loadtxt (file : list (list Q)) : result txt_array :=
  match file with
  | [] => Ok (Squeezed [])
  | first :: rest =>
      let n := List.length first in
      if forallb (fun l => List.length l =? n) rest
      then if (List.length file <=? 1) || (n <=? 1)
           then Ok (Squeezed (concat file))
           else Ok (Table n file)
      else Raise ValueError
  end.

(** [y[:,c]] *)
Definition take_column (y : txt_array) (c : nat) : result (list Q) :=
  match y with
  | Squeezed _ => Raise IndexError
  | Table n lines =>
      if c <? n then Ok (map (fun l => nth c l 0%Q) lines) else Raise IndexError
  end.

(** conversion of a float to [int32]: truncation towards zero (values are
    taken to fit in 32 bits) *)
Definition int32 (x : Q) : Z := Z.quot (Qnum x) (Zpos (Qden x)).

(** ** The recommender *)

(** The instance state: the attribute [similarity_matrix], absent until
    [fit] or [load_similarity_matrix] has assigned it. *)
Record recommender : Type := mk_recommender {
  similarity_matrix : option csr_matrix
}.

(** The abstract method: subclasses supply [compute_similarities(dataset, j)].
    It receives the dataset argument as the caller passed it ([None] when
    [get_similar_items] is called without one) and may raise. *)
Class ItemSimilarity : Type := {
  compute_similarities : option csr_matrix -> nat -> result ndarray
}.

(** [self.similarity_matrix] *)
Definition getattr_similarity_matrix (self : recommender) : result csr_matrix :=
  match similarity_matrix self with
  | Some m => Ok m
  | None => Raise (AttributeError "object has no attribute 'similarity_matrix'")
  end.

Definition not_fitted : exn :=
  AttributeError "you must call fit() before trying to recommend items".

(** One entry of a recommendation list: [(idx, score)] or a bare [idx]. *)
Inductive recommendation : Type :=
| WithScore (i : nat) (v : Q)
| ItemOnly (i : nat).

Definition rec_item (x : recommendation) : nat :=
  match x with WithScore i _ => i | ItemOnly i => i end.

Definition rec_score (x : recommendation) : option Q :=
  match x with WithScore _ v => Some v | ItemOnly _ => None end.

Section Recommender.
Context {strategy : ItemSimilarity}.

(** *** fit *)

(** [for k,v in enumerate(w): if v != 0: data.append(v); row.append(j); col.append(k)] *)
Definition append_nonzero (j : nat) (w : ndarray) (acc : list Q * list Z * list Z)
  : list Q * list Z * list Z :=
  fold_left
    (fun (a : list Q * list Z * list Z) (kv : nat * Q) =>
       let '(dat, row, col) := a in
       if Qneqb (snd kv) 0
       then (dat ++ [snd kv], row ++ [Z.of_nat j], col ++ [Z.of_nat (fst kv)])
       else a)
    (enumerate w) acc.

(** [for j in xrange(num_items): w = self.compute_similarities(dataset,j); ...] *)
Fixpoint fit_loop (dataset : csr_matrix) (js : list nat) (acc : list Q * list Z * list Z)
  : result (list Q * list Z * list Z) :=
  match js with
  | [] => Ok acc
  | j :: rest =>
      w <- compute_similarities (Some dataset) j ;;
      fit_loop dataset rest (append_nonzero j w acc)
  end.

(** [fit(dataset)]: returns the state after the call and the outcome.
    The attribute is assigned by the last statement only.  The conversion
    to [fast_sparse_matrix] keeps shape and entries and is left out. *)
Definition fit (self : recommender) (dataset : csr_matrix) : recommender * result unit :=
  let num_items := snd (shape dataset) in
  match (acc <- fit_loop dataset (seq 0 num_items) ([], [], []) ;;
         let '(dat, row, col) := acc in
         csr_from_coo dat row col (num_items, num_items)) with
  | Ok m => (mk_recommender (Some m), Ok tt)
  | Raise e => (self, Raise e)
  end.

(** *** load_similarity_matrix *)

Definition load_similarity_matrix (self : recommender) (file : list (list Q))
           (num_items : nat) (offset : Z) : recommender * result unit :=
  match (y <- loadtxt file ;;
         row <- take_column y 0 ;;
         col <- take_column y 1 ;;
         dat <- take_column y 2 ;;
         csr_from_coo dat
                      (map (fun x => (int32 x - offset)%Z) row)
                      (map (fun x => (int32 x - offset)%Z) col)
                      (num_items, num_items)) with
  | Ok m => (mk_recommender (Some m), Ok tt)
  | Raise e => (self, Raise e)
  end.

(** *** get_similar_items *)

Definition get_similar_items (self : recommender) (j max_similar_items : nat)
           (dataset : option csr_matrix) : result (list (nat * Q)) :=
  match similarity_matrix self with
  | Some sm =>
      sj <- getrow sm j ;;
      let w := combine (indices sj) (data sj) in
      let sims := firstn max_similar_items (sorted_by_key_reverse snd w) in
      Ok (filter (fun p => positive (snd p)) sims)
  | None =>
      w <- compute_similarities dataset j ;;
      Ok (map (fun i => (i, item w i))
              (filter (fun i => positive (item w i))
                      (firstn max_similar_items (rev (argsort w)))))
  end.

(** *** recommend_items *)

(** the loop [for i in r.argsort()[::-1]: ...] over the remaining
    indices, with the list built so far *)
Fixpoint recommend_loop (known_items : list nat) (r : ndarray) (max_items : nat)
         (return_scores : bool) (order : list nat) (recs : list recommendation)
  : list recommendation :=
  match order with
  | [] => recs
  | i :: rest =>
      if existsb (Nat.eqb i) known_items
      then recommend_loop known_items r max_items return_scores rest recs
      else
        let recs' := recs ++ [if return_scores then WithScore i (item r i) else ItemOnly i] in
        if max_items <=? List.length recs'
        then recs'
        else recommend_loop known_items r max_items return_scores rest recs'
  end.

Definition recommend_items (self : recommender) (dataset : csr_matrix) (u max_items : nat)
           (return_scores : bool) : result (list recommendation) :=
  r <- try_except_AttributeError
         (sm <- getattr_similarity_matrix self ;;
          du <- getrow dataset u ;;
          p <- matmul sm (transpose du) ;;
          Ok (flatten (toarray p)))
         (Raise not_fitted) ;;
  du <- getrow dataset u ;;
  let known_items := indices du in
  Ok (recommend_loop known_items r max_items return_scores (rev (argsort r)) []).

(** *** batch and range recommendation

    [show_progress] only prints and is left out. *)

(** Modelled from the spec: [BaseRecommender._zero_known_item_scores] is
    defined in [mrec/base_recommender.py], which is not part of the
    sources at hand.  Following the Recommendation Selector, step (1):
    every entry of a user's score row whose column is non-zero in that
    user's row of the interaction matrix is set to zero. *)
Definition _zero_known_item_scores (r train : csr_matrix) : csr_matrix :=
  mk_csr (shape r)
         (map (fun rt => map (fun p => if Qneqb (row_get (snd rt) (fst p)) 0
                                       then (fst p, 0%Q) else p)
                             (fst rt))
              (combine (rows r) (rows train))).

(** the list comprehension of one user:
    [[(i,v) for v,i in sorted(izip(ru.data,ru.indices),reverse=True) if v > 0][:max_items]] *)
Definition select_row (ru : csr_matrix) (max_items : nat) (return_scores : bool)
  : list recommendation :=
  let ranked := filter (fun vi => positive (fst vi))
                       (sorted_reverse tuple_le (combine (data ru) (indices ru))) in
  if return_scores
  then firstn max_items (map (fun vi => WithScore (snd vi) (fst vi)) ranked)
  else firstn max_items (map (fun vi => ItemOnly (snd vi)) ranked).

Definition _get_recommendations_from_predictions (r dataset : csr_matrix)
           (user_start user_end max_items : nat) (return_scores : bool)
  : result (list (list recommendation)) :=
  let r := _zero_known_item_scores r (slice_rows dataset user_start user_end) in
  mapM (fun u =>
          let ux := u - user_start in
          ru <- getrow r ux ;;
          Ok (select_row ru max_items return_scores))
       (seq user_start (user_end - user_start)).

Definition batch_recommend_items (self : recommender) (dataset : csr_matrix)
           (max_items : nat) (return_scores : bool)
  : result (list (list recommendation)) :=
  r <- try_except_AttributeError
         (sm <- getattr_similarity_matrix self ;;
          matmul dataset (transpose sm))
         (Raise not_fitted) ;;
  _get_recommendations_from_predictions r dataset 0 (fst (shape r)) max_items return_scores.

Definition range_recommend_items (self : recommender) (dataset : csr_matrix)
           (user_start user_end max_items : nat) (return_scores : bool)
  : result (list (list recommendation)) :=
  r <- try_except_AttributeError
         (sm <- getattr_similarity_matrix self ;;
          matmul (slice_rows dataset user_start user_end) (transpose sm))
         (Raise not_fitted) ;;
  _get_recommendations_from_predictions r dataset user_start user_end max_items return_scores.

End Recommender.

(** ** Worked instances

    Three users and four items; user 0 has interacted with items 0 and 2
    (weight 1 each); the rows of users 1 and 2 are left open. *)
Definition interactions (row1 row2 : sparse_row) : csr_matrix :=
  mk_csr (3, 4) [ [(0, 1%Q); (2, 1%Q)]; row1; row2 ].

(** the similarity matrix with row 0 = [0, 0.8, 0.1, 0.0] and
    row 2 = [0.3, 0.0, 0, 0.9], the other rows zero *)
Definition similarity_by_row : csr_matrix :=
  mk_csr (4, 4) [ [(1, 8#10); (2, 1#10)]; []; [(0, 3#10); (3, 9#10)]; [] ].

(** the same numbers laid out by column: column 0 = [0, 0.8, 0.1, 0.0] and
    column 2 = [0.3, 0.0, 0, 0.9] *)
Definition similarity_by_column : csr_matrix :=
  mk_csr (4, 4) [ [(2, 3#10)]; [(0, 8#10)]; [(0, 1#10)]; [(2, 9#10)] ].

(** one user who knows item 0 of three, and a similarity matrix in which
    item 1 is negatively related to item 0 and item 2 is unrelated *)
Definition one_user : csr_matrix := mk_csr (1, 3) [ [(0, 1%Q)] ].

Definition negative_similarity : csr_matrix :=
  mk_csr (3, 3) [ []; [(0, (-1)#2)]; [] ].

(** item 0 is equally similar to items 1 and 2 *)
Definition tied_similarity : csr_matrix :=
  mk_csr (3, 3) [ [(1, 1#2); (2, 1#2)]; []; [] ].

(** the triplet source [(1,2,0.5),(2,1,0.5)] *)
Definition triplet_source : list (list Q) := [ [1; 2; 1#2]; [2; 1; 1#2] ]%Q.

(** items 1 and 2 both have similarity 0.5 to item 0, which gives them
    equal scores for the user of [one_user] *)
Definition tied_scores_similarity : csr_matrix :=
  mk_csr (3, 3) [ []; [(0, 1#2)]; [(0, 1#2)] ].

(** a strategy returning the same similarity vector for every item *)
Definition constant_strategy (w : ndarray) : ItemSimilarity :=
  {| compute_similarities := fun _ _ => Ok w |}.

(** a strategy that raises for item [bad] and returns [w] for the others *)
Definition failing_strategy (bad : nat) (w : ndarray) : ItemSimilarity :=
  {| compute_similarities := fun _ j =>
       if j =? bad then Raise (Exception "similarity failed") else Ok w |}.

(** ** Notions used in the statements *)

(** [k] is a known item of user [u]: the entry of the interaction matrix
    is non-zero. *)
Definition known_item (dataset : csr_matrix) (u k : nat) : Prop :=
  ~ (entry dataset u k == 0)%Q.

(** what [recommend_items] appends for index [i] *)
Definition make_rec (r : ndarray) (return_scores : bool) (i : nat) : recommendation :=
  if return_scores then WithScore i (item r i) else ItemOnly i.

(** the test [i not in known_items] *)
Definition unknown (known_items : list nat) (i : nat) : bool :=
  negb (existsb (Nat.eqb i) known_items).

(** a line of a triplet source whose two indices, once the offset is
    subtracted, address a cell of a [num_items] x [num_items] matrix *)
Definition line_in_range (num_items : nat) (offset : Z) (line : list Q) : Prop :=
  List.length line = 3 /\
  (0 <= int32 (nth 0 line 0%Q) - offset < Z.of_nat num_items)%Z /\
  (0 <= int32 (nth 1 line 0%Q) - offset < Z.of_nat num_items)%Z.

(** [(v1,i1)] sorts strictly before [(v2,i2)] in reverse lexicographic
    order: higher score first, and among equal scores higher index first *)
Definition tuple_gt (a b : Q * nat) : Prop :=
  (fst b < fst a)%Q \/ ((fst a == fst b)%Q /\ snd b < snd a).

(** the same order on the entries of a recommendation list with scores *)
Definition ranked_before (x y : recommendation) : Prop :=
  match rec_score x, rec_score y with
  | Some vx, Some vy => (vy < vx)%Q \/ ((vx == vy)%Q /\ rec_item y < rec_item x)
  | _, _ => False
  end.

(** [x] carries a score that is at least the score of [y] *)
Definition score_not_below (x y : recommendation) : Prop :=
  match rec_score x, rec_score y with
  | Some vx, Some vy => (vy <= vx)%Q
  | _, _ => False
  end.

(** the sum of the values that a list of coordinate triplets gives for
    the cell [(i, k)] *)
Definition coo_sum (trip : list ((Z * Z) * Q)) (i k : nat) : Q :=
  fold_right Qplus 0%Q (coo_values trip i k).

(** the lines of a triplet source that address the cell [(i, k)] once the
    offset is subtracted *)
Definition addresses (offset : Z) (i k : nat) (line : list Q) : bool :=
  ((int32 (nth 0 line 0%Q) - offset =? Z.of_nat i) &&
   (int32 (nth 1 line 0%Q) - offset =? Z.of_nat k))%Z.

(** the coordinate triplets held in the three lists that [fit] builds, and
    the triplets that one similarity vector adds to them *)
Definition triplets_of (acc : list Q * list Z * list Z) : list ((Z * Z) * Q) :=
  combine (combine (snd (fst acc)) (snd acc)) (fst (fst acc)).

Definition new_triplets (j : nat) (w : ndarray) : list ((Z * Z) * Q) :=
  map (fun kv => ((Z.of_nat j, Z.of_nat (fst kv)), snd kv)) (sparsify w).

(** the three lists have the same length *)
Definition aligned (acc : list Q * list Z * list Z) : Prop :=
  List.length (fst (fst acc)) = List.length (snd (fst acc)) /\
  List.length (snd (fst acc)) = List.length (snd acc).




(** * Properties *)

(** ** Facts about the comparisons *)

Lemma Qltb_lt (x y : Q) : Qltb x y = true <-> (x < y)%Q.
Proof.
  unfold Qltb. rewrite Qlt_alt.
  destruct (Qcompare x y); split; congruence.
Qed.

Lemma positive_iff (v : Q) : positive v = true <-> (0 < v)%Q.
Proof. apply Qltb_lt. Qed.

Lemma Qneqb_true (x y : Q) : Qneqb x y = true <-> ~ (x == y)%Q.
Proof.
  unfold Qneqb. rewrite negb_true_iff.
  split.
  - intros H E. apply Qeq_bool_iff in E. congruence.
  - intros H. destruct (Qeq_bool x y) eqn:E; [|reflexivity].
    apply Qeq_bool_iff in E. contradiction.
Qed.

Lemma Qle_bool_total (x y : Q) : Qle_bool x y = true \/ Qle_bool y x = true.
Proof.
  rewrite !Qle_bool_iff.
  destruct (Qlt_le_dec x y) as [H|H]; [left; apply Qlt_le_weak|right]; assumption.
Qed.

Lemma Qle_bool_trans (x y z : Q) :
  Qle_bool x y = true -> Qle_bool y z = true -> Qle_bool x z = true.
Proof. rewrite !Qle_bool_iff. apply Qle_trans. Qed.

(** ** Facts about lists *)

Lemma in_firstn {A : Type} (x : A) (n : nat) (l : list A) :
  In x (firstn n l) -> In x l.
Proof.
  revert l. induction n as [|n IH]; intros [|y t]; simpl; try tauto.
  intros [H|H]; [now left|right; now apply IH].
Qed.

(** ** Facts about [sorted] *)

Section SortedFacts.
Context {A : Type} (le : A -> A -> bool).

Lemma insert_perm (x : A) (l : list A) : Permutation (insert le x l) (x :: l).
Proof.
  induction l as [|y t IH]; simpl.
  - reflexivity.
  - destruct (le x y).
    + reflexivity.
    + rewrite IH. apply perm_swap.
Qed.

Lemma sorted_perm (l : list A) : Permutation (sorted le l) l.
Proof.
  induction l as [|x t IH]; simpl.
  - reflexivity.
  - rewrite insert_perm. now constructor.
Qed.

Lemma sorted_reverse_perm (l : list A) : Permutation (sorted_reverse le l) l.
Proof.
  unfold sorted_reverse.
  rewrite <- Permutation_rev, sorted_perm, <- Permutation_rev.
  reflexivity.
Qed.

Lemma in_sorted (x : A) (l : list A) : In x (sorted le l) <-> In x l.
Proof.
  split; apply Permutation_in; [|symmetry]; apply sorted_perm.
Qed.

Lemma in_sorted_reverse (x : A) (l : list A) : In x (sorted_reverse le l) <-> In x l.
Proof.
  split; apply Permutation_in; [|symmetry]; apply sorted_reverse_perm.
Qed.

Hypothesis le_total : forall a b, le a b = true \/ le b a = true.
Hypothesis le_trans : forall a b c, le a b = true -> le b c = true -> le a c = true.

Let leP (a b : A) : Prop := le a b = true.

Lemma insert_sorted (x : A) (l : list A) :
  StronglySorted leP l -> StronglySorted leP (insert le x l).
Proof.
  induction 1 as [|y t Hs IH Hall]; simpl.
  - constructor; constructor.
  - destruct (le x y) eqn:E.
    + constructor.
      * now constructor.
      * constructor; [exact E|].
        eapply Forall_impl; [|exact Hall].
        intros z Hz. eapply le_trans; eassumption.
    + constructor; [exact IH|].
      assert (Hyx : leP y x) by (destruct (le_total x y); [congruence|assumption]).
      eapply Permutation_Forall; [symmetry; apply insert_perm|].
      now constructor.
Qed.

Lemma sorted_sorted (l : list A) : StronglySorted leP (sorted le l).
Proof.
  induction l as [|x t IH]; simpl.
  - constructor.
  - now apply insert_sorted.
Qed.

Lemma StronglySorted_app_single (R : A -> A -> Prop) (l : list A) (x : A) :
  StronglySorted R l -> Forall (fun y => R y x) l -> StronglySorted R (l ++ [x]).
Proof.
  induction 1 as [|y t Hs IH Hall]; intros Hx; simpl.
  - constructor; constructor.
  - inversion Hx; subst.
    constructor; [now apply IH|].
    apply Forall_app. split; [assumption|now constructor].
Qed.

Lemma StronglySorted_rev (R : A -> A -> Prop) (l : list A) :
  StronglySorted R l -> StronglySorted (fun a b => R b a) (rev l).
Proof.
  induction 1 as [|y t Hs IH Hall]; simpl.
  - constructor.
  - apply StronglySorted_app_single; [exact IH|].
    apply Forall_rev. exact Hall.
Qed.

Lemma sorted_reverse_sorted (l : list A) :
  StronglySorted (fun a b => le b a = true) (sorted_reverse le l).
Proof.
  unfold sorted_reverse.
  apply (StronglySorted_rev leP), sorted_sorted.
Qed.

Lemma StronglySorted_filter (R : A -> A -> Prop) (f : A -> bool) (l : list A) :
  StronglySorted R l -> StronglySorted R (filter f l).
Proof.
  induction 1 as [|y t Hs IH Hall]; simpl.
  - constructor.
  - destruct (f y); [|exact IH].
    constructor; [exact IH|].
    apply Forall_forall. intros z Hz.
    apply filter_In in Hz. destruct Hz as [Hz _].
    rewrite Forall_forall in Hall. now apply Hall.
Qed.

Lemma StronglySorted_firstn (R : A -> A -> Prop) (n : nat) (l : list A) :
  StronglySorted R l -> StronglySorted R (firstn n l).
Proof.
  intros H. revert n.
  induction H as [|y t Hs IH Hall]; intros [|n]; simpl; try constructor.
  - apply IH.
  - apply Forall_forall. intros z Hz.
    rewrite Forall_forall in Hall. apply Hall.
    eapply in_firstn. exact Hz.
Qed.

End SortedFacts.

Lemma StronglySorted_impl {A : Type} (R R' : A -> A -> Prop) (l : list A) :
  (forall a b, R a b -> R' a b) ->
  StronglySorted R l -> StronglySorted R' l.
Proof.
  intros HR. induction 1 as [|y t Hs IH Hall]; constructor.
  - exact IH.
  - eapply Forall_impl; [|exact Hall]. intros z. apply HR.
Qed.

Lemma StronglySorted_map {A B : Type} (R : A -> A -> Prop) (R' : B -> B -> Prop)
      (f : A -> B) (l : list A) :
  (forall a b, R a b -> R' (f a) (f b)) ->
  StronglySorted R l -> StronglySorted R' (map f l).
Proof.
  intros Hf. induction 1 as [|y t Hs IH Hall]; simpl; constructor.
  - exact IH.
  - apply Forall_map. eapply Forall_impl; [|exact Hall].
    intros z Hz. now apply Hf.
Qed.

(** ** Facts about the error monad *)

Lemma bind_Ok {A B : Type} (m : result A) (k : A -> result B) (b : B) :
  bind m k = Ok b -> exists a, m = Ok a /\ k a = Ok b.
Proof.
  destruct m as [a|e]; simpl; [eauto|discriminate].
Qed.

Lemma try_except_Ok {A : Type} (body : result A) (e : exn) (a : A) :
  try_except_AttributeError body (Raise e) = Ok a -> body = Ok a.
Proof.
  destruct body as [x|[]]; simpl; congruence.
Qed.

Lemma mapM_nth {A B : Type} (f : A -> result B) (l : list A) (ls : list B) :
  mapM f l = Ok ls ->
  forall n y, nth_error ls n = Some y ->
  exists x, nth_error l n = Some x /\ f x = Ok y.
Proof.
  revert ls. induction l as [|a t IH]; simpl; intros ls H n y Hn.
  - inversion H; subst. destruct n; discriminate.
  - apply bind_Ok in H. destruct H as [b [Hb H]].
    apply bind_Ok in H. destruct H as [bs [Hbs H]].
    inversion H; subst.
    destruct n as [|n]; simpl in *.
    + inversion Hn; subst. eauto.
    + eapply IH; eauto.
Qed.

Lemma mapM_total {A B : Type} (f : A -> result B) (l : list A) :
  (forall x, In x l -> exists y, f x = Ok y) -> exists ls, mapM f l = Ok ls.
Proof.
  induction l as [|a t IH]; simpl; intros H.
  - eauto.
  - destruct (H a (or_introl eq_refl)) as [y Hy]. rewrite Hy. simpl.
    destruct IH as [ls Hls]; [intros x Hx; apply H; now right|].
    rewrite Hls. simpl. eauto.
Qed.

(** ** Facts about sparse rows *)

Lemma row_get_stored (row : sparse_row) (k : nat) :
  ~ (row_get row k == 0)%Q -> In k (map fst row).
Proof.
  induction row as [|p t IH]; simpl; intros H.
  - apply H. reflexivity.
  - destruct (Nat.eqb_spec (fst p) k) as [E|E].
    + now left.
    + right. now apply IH.
Qed.

Lemma indices_getrow (m : csr_matrix) (u : nat) (mu : csr_matrix) :
  getrow m u = Ok mu -> indices mu = map fst (row_of m u) /\ data mu = map snd (row_of m u).
Proof.
  unfold getrow. destruct (u <? fst (shape m)); [|discriminate].
  intros H. inversion H; subst.
  unfold indices, data. simpl. rewrite app_nil_r. split; reflexivity.
Qed.

(** ** The loop of [recommend_items] in closed form

    The loop appends the unknown indices in the order it visits them and
    tests the length only after appending: started on the empty list it
    returns the first [max 1 max_items] unknown indices. *)

#[local] Arguments Nat.max : simpl never.

Lemma recommend_loop_closed (known_items : list nat) (r : ndarray) (max_items : nat)
      (return_scores : bool) (order : list nat) (recs : list recommendation) :
  recommend_loop known_items r max_items return_scores order recs =
  recs ++ firstn (Nat.max 1 (max_items - List.length recs))
                 (map (make_rec r return_scores) (filter (unknown known_items) order)).
Proof.
  revert recs. induction order as [|i rest IH]; intros recs; simpl.
  - rewrite firstn_nil, app_nil_r. reflexivity.
  - unfold unknown at 1.
    destruct (existsb (Nat.eqb i) known_items) eqn:E; simpl.
    + apply IH.
    + fold (make_rec r return_scores i).
      rewrite length_app. simpl.
      destruct (Nat.leb_spec max_items (List.length recs + 1)) as [L|L].
      * replace (Nat.max 1 (max_items - List.length recs)) with 1 by lia.
        reflexivity.
      * rewrite IH, length_app. simpl.
        replace (Nat.max 1 (max_items - List.length recs))
          with (S (Nat.max 1 (max_items - (List.length recs + 1)))) by lia.
        simpl. rewrite <- app_assoc. reflexivity.
Qed.

Lemma recommend_items_Ok (self : recommender) (dataset : csr_matrix) (u max_items : nat)
      (return_scores : bool) (l : list recommendation) :
  recommend_items self dataset u max_items return_scores = Ok l ->
  exists r, l = firstn (Nat.max 1 max_items)
                       (map (make_rec r return_scores)
                            (filter (unknown (map fst (row_of dataset u))) (rev (argsort r)))).
Proof.
  unfold recommend_items. intros H.
  apply bind_Ok in H. destruct H as [r [_ H]].
  apply bind_Ok in H. destruct H as [du [Hdu H]].
  apply indices_getrow in Hdu. destruct Hdu as [Hi _].
  inversion H; subst. exists r.
  rewrite recommend_loop_closed, Hi. simpl. rewrite Nat.sub_0_r. reflexivity.
Qed.

(** ** Selection from predicted scores *)

Lemma nth_error_combine {A B : Type} (l : list A) (l' : list B) (n : nat) (x : A) (y : B) :
  nth_error (combine l l') n = Some (x, y) ->
  nth_error l n = Some x /\ nth_error l' n = Some y.
Proof.
  revert l' n. induction l as [|a t IH]; intros [|b t'] [|n]; simpl; try discriminate.
  - intros H. inversion H; subst. split; reflexivity.
  - apply IH.
Qed.

Lemma combine_data_indices (ru : csr_matrix) (v : Q) (i : nat) :
  In (v, i) (combine (data ru) (indices ru)) -> In (i, v) (concat (rows ru)).
Proof.
  unfold data, indices. generalize (concat (rows ru)) as row.
  induction row as [|[k w] t IH]; simpl; [tauto|].
  intros [H|H]; [left; congruence|right; now apply IH].
Qed.

Lemma select_row_In (ru : csr_matrix) (max_items : nat) (return_scores : bool)
      (x : recommendation) :
  In x (select_row ru max_items return_scores) ->
  exists v, In (v, rec_item x) (combine (data ru) (indices ru)) /\ (0 < v)%Q /\
            (return_scores = true -> x = WithScore (rec_item x) v).
Proof.
  unfold select_row. intros H.
  destruct return_scores; apply in_firstn, in_map_iff in H;
    destruct H as [[v i] [Hx H]]; apply filter_In in H; destruct H as [H Hv];
    apply in_sorted_reverse in H; apply positive_iff in Hv;
    subst x; simpl in *; exists v; repeat split; auto; discriminate.
Qed.

Lemma get_recommendations_nth (r dataset : csr_matrix) (user_start user_end max_items : nat)
      (return_scores : bool) (ls : list (list recommendation)) (n : nat)
      (l : list recommendation) :
  _get_recommendations_from_predictions r dataset user_start user_end max_items return_scores
    = Ok ls ->
  nth_error ls n = Some l ->
  exists ru,
    getrow (_zero_known_item_scores r (slice_rows dataset user_start user_end)) n = Ok ru /\
    l = select_row ru max_items return_scores.
Proof.
  unfold _get_recommendations_from_predictions. intros H Hn.
  destruct (mapM_nth _ _ _ H n l Hn) as [u [Hu Hf]].
  assert (Hlt : n < user_end - user_start).
  { assert (Hs : nth_error (seq user_start (user_end - user_start)) n <> None)
      by (rewrite Hu; discriminate).
    apply nth_error_Some in Hs. rewrite length_seq in Hs. exact Hs. }
  rewrite nth_error_seq in Hu.
  destruct (Nat.ltb_spec n (user_end - user_start)); [|lia].
  inversion Hu; subst u.
  replace (user_start + n - user_start) with n in Hf by lia.
  apply bind_Ok in Hf. destruct Hf as [ru [Hru Hf]].
  inversion Hf; subst. eauto.
Qed.

(** The rows of a slice are the rows of the matrix it is taken from. *)
Lemma slice_rows_nth (m : csr_matrix) (a b n : nat) (y : sparse_row) :
  nth_error (rows (slice_rows m a b)) n = Some y -> nth_error (rows m) (a + n) = Some y.
Proof.
  unfold slice_rows. simpl. intros H.
  assert (Hn : n < Nat.min b (fst (shape m)) - Nat.min a (fst (shape m))).
  { assert (Hs : nth_error
      (firstn (Nat.min b (fst (shape m)) - Nat.min a (fst (shape m)))
              (skipn (Nat.min a (fst (shape m))) (rows m))) n <> None)
      by (rewrite H; discriminate).
    apply nth_error_Some in Hs. rewrite length_firstn in Hs. lia. }
  rewrite nth_error_firstn in H.
  destruct (Nat.ltb_spec n (Nat.min b (fst (shape m)) - Nat.min a (fst (shape m)))); [|lia].
  rewrite nth_error_skipn in H.
  replace (Nat.min a (fst (shape m))) with a in H by lia.
  exact H.
Qed.

(** After masking, a stored score at a known item of the user is zero. *)
Lemma masked_known_zero (r dataset : csr_matrix) (a b n : nat) (p : nat * Q) :
  In p (row_of (_zero_known_item_scores r (slice_rows dataset a b)) n) ->
  known_item dataset (a + n) (fst p) ->
  snd p = 0%Q.
Proof.
  unfold row_of at 1, known_item, entry.
  generalize (slice_rows_nth dataset a b n).
  generalize (slice_rows dataset a b) as train.
  intros train Hslice Hin Hk.
  unfold _zero_known_item_scores in Hin. cbn [rows] in Hin.
  destruct (nth_error (combine (rows r) (rows train)) n) as [[x y]|] eqn:E;
    unfold sparse_row in *.
  - erewrite nth_error_nth in Hin
      by (rewrite nth_error_map, E; reflexivity).
    apply nth_error_combine in E. destruct E as [_ Ey].
    apply Hslice in Ey.
    unfold row_of in Hk. erewrite nth_error_nth in Hk by exact Ey.
    cbn [fst snd] in Hin.
    apply in_map_iff in Hin. destruct Hin as [q [Hq _]].
    destruct (Qneqb (row_get y (fst q)) 0) eqn:N.
    + subst p. reflexivity.
    + subst p. exfalso.
      apply Qneqb_true in Hk. congruence.
  - rewrite nth_overflow in Hin; [destruct Hin|].
    rewrite length_map. apply nth_error_None. exact E.
Qed.

Lemma getrow_rows (m : csr_matrix) (n : nat) (ru : csr_matrix) :
  getrow m n = Ok ru -> concat (rows ru) = row_of m n.
Proof.
  unfold getrow. destruct (n <? fst (shape m)); [|discriminate].
  intros H. inversion H; subst. simpl. apply app_nil_r.
Qed.

Lemma selection_excludes_known (r dataset : csr_matrix) (a b max_items : nat)
      (return_scores : bool) (ls : list (list recommendation)) (n : nat)
      (l : list recommendation) (k : nat) :
  _get_recommendations_from_predictions r dataset a b max_items return_scores = Ok ls ->
  nth_error ls n = Some l ->
  known_item dataset (a + n) k ->
  ~ In k (map rec_item l).
Proof.
  intros H Hn Hk Hin.
  destruct (get_recommendations_nth _ _ _ _ _ _ _ _ _ H Hn) as [ru [Hru Hl]].
  apply in_map_iff in Hin. destruct Hin as [x [Hx Hin]].
  subst l. apply select_row_In in Hin. destruct Hin as [v [Hv [Hpos _]]].
  apply combine_data_indices in Hv.
  rewrite (getrow_rows _ _ _ Hru), Hx in Hv.
  apply masked_known_zero in Hv; [|exact Hk].
  simpl in Hv. subst v. revert Hpos. apply Qlt_irrefl.
Qed.

Lemma unknown_not_in (known_items : list nat) (i : nat) :
  unknown known_items i = true -> ~ In i known_items.
Proof.
  unfold unknown. rewrite negb_true_iff. intros H Hin.
  assert (E : existsb (Nat.eqb i) known_items = true).
  { apply existsb_exists. exists i. split; [assumption|apply Nat.eqb_refl]. }
  congruence.
Qed.

Lemma rec_item_make_rec (r : ndarray) (return_scores : bool) (i : nat) :
  rec_item (make_rec r return_scores i) = i.
Proof. destruct return_scores; reflexivity. Qed.

(** C1. A known item of user [u] (a non-zero entry of row [u] of the
    interaction matrix) never occurs in what [recommend_items] returns for
    [u], nor in the list for [u] among those returned by
    [range_recommend_items] (position [u - user_start]) and by
    [batch_recommend_items] (position [u]). *)
Theorem known_items_never_recommended
        (self : recommender) (dataset : csr_matrix) (u k : nat)
        (Hknown : known_item dataset u k) :
  (forall max_items return_scores l,
      recommend_items self dataset u max_items return_scores = Ok l ->
      ~ In k (map rec_item l)) /\
  (forall user_start user_end max_items return_scores ls l,
      range_recommend_items self dataset user_start user_end max_items return_scores = Ok ls ->
      user_start <= u ->
      nth_error ls (u - user_start) = Some l ->
      ~ In k (map rec_item l)) /\
  (forall max_items return_scores ls l,
      batch_recommend_items self dataset max_items return_scores = Ok ls ->
      nth_error ls u = Some l ->
      ~ In k (map rec_item l)).
Proof.
  repeat split.
  - intros max_items return_scores l H Hin.
    apply recommend_items_Ok in H. destruct H as [r Hl]. subst l.
    apply in_map_iff in Hin. destruct Hin as [x [Hx Hin]].
    apply in_firstn, in_map_iff in Hin. destruct Hin as [i [Hi Hin]].
    apply filter_In in Hin. destruct Hin as [_ Hun].
    subst x. rewrite rec_item_make_rec in Hx. subst i.
    apply unknown_not_in in Hun. apply Hun.
    apply row_get_stored. exact Hknown.
  - intros a b max_items return_scores ls l H Ha Hn.
    unfold range_recommend_items in H.
    apply bind_Ok in H. destruct H as [r [_ H]].
    eapply selection_excludes_known; [exact H|exact Hn|].
    replace (a + (u - a)) with u by lia. exact Hknown.
  - intros max_items return_scores ls l H Hn.
    unfold batch_recommend_items in H.
    apply bind_Ok in H. destruct H as [r [_ H]].
    eapply selection_excludes_known; [exact H|exact Hn|exact Hknown].
Qed.

Lemma known_items_never_recommended_witness :
  known_item (interactions [] []) 0 2 /\
  ~ In 2 (map rec_item [WithScore 3 (9#10); WithScore 1 (8#10)]) /\
  ~ In 2 (map rec_item [WithScore 3 (9#10)]) /\
  ~ In 2 (map rec_item [ItemOnly 3; ItemOnly 1]).
Proof.
  assert (Hk : known_item (interactions [] []) 0 2)
    by (intros H; vm_compute in H; discriminate H).
  destruct (known_items_never_recommended
              (mk_recommender (Some similarity_by_column)) (interactions [] []) 0 2 Hk)
    as [Hsingle [Hrange Hbatch]].
  split; [exact Hk|].
  split; [|split].
  - apply (Hsingle 2 true). reflexivity.
  - apply (Hrange 0 1 1 true [[WithScore 3 (9#10)]]);
      [reflexivity|apply le_n|reflexivity].
  - apply (Hbatch 2 false [[ItemOnly 3; ItemOnly 1]; []; []]); reflexivity.
Defined.

(** ** The concrete scenario of the specification *)

(** C2, as stated: with the similarity matrix given by its rows 0 and 2,
    the product [similarity_matrix * dataset[u].T] adds up columns 0 and 2
    of the matrix, which gives the scores [0.1, 0, 0.3, 0]; the two unknown
    items come back with score 0, not with 0.9 and 0.8. *)
Lemma scenario_by_row_scores_zero :
  recommend_items (mk_recommender (Some similarity_by_row)) (interactions [] []) 0 2 true
    = Ok [WithScore 3 0; WithScore 1 0] /\
  ~ (0 == 9#10)%Q /\ ~ (0 == 8#10)%Q.
Proof.
  split; [reflexivity|].
  split; intros H; discriminate H.
Qed.

(** C2, amended: when the numbers are the columns 0 and 2 of the
    similarity matrix (entry [(i,k)] weighs known item [k] in the score of
    candidate [i]), user 0 gets exactly [[(3, 0.9), (1, 0.8)]], whatever the
    rows of the other two users are. *)
Theorem scenario_by_column (row1 row2 : sparse_row) :
  recommend_items (mk_recommender (Some similarity_by_column)) (interactions row1 row2)
                  0 2 true
    = Ok [WithScore 3 (9#10); WithScore 1 (8#10)].
Proof. reflexivity. Qed.

(** ** Scores that are not positive *)

(** C3 at a failing input: [recommend_items] has no test [v > 0]; for the
    single user of [one_user] it returns item 2 with score 0 and item 1 with
    score -1/2, while the batch and range selections return nothing for the
    same user. *)
Theorem recommend_items_nonpositive_scores :
  recommend_items (mk_recommender (Some negative_similarity)) one_user 0 10 true
    = Ok [WithScore 2 0; WithScore 1 ((-1)#2)] /\
  batch_recommend_items (mk_recommender (Some negative_similarity)) one_user 10 true
    = Ok [[]] /\
  range_recommend_items (mk_recommender (Some negative_similarity)) one_user 0 1 10 true
    = Ok [[]].
Proof. repeat split; reflexivity. Qed.

(** C5 at a failing input: for user 0 of the scenario with the matrix given
    by rows, [recommend_items] returns two entries of score 0 where the
    entry for user 0 of [range_recommend_items] and of
    [batch_recommend_items] is empty. *)
Theorem single_differs_from_range_and_batch :
  recommend_items (mk_recommender (Some similarity_by_row)) (interactions [] []) 0 2 true
    = Ok [WithScore 3 0; WithScore 1 0] /\
  (exists ls, range_recommend_items (mk_recommender (Some similarity_by_row))
                                    (interactions [] []) 0 1 2 true = Ok ls /\
              nth_error ls (0 - 0) = Some []) /\
  (exists ls, batch_recommend_items (mk_recommender (Some similarity_by_row))
                                    (interactions [] []) 2 true = Ok ls /\
              nth_error ls 0 = Some []).
Proof.
  split; [reflexivity|].
  split; eexists; split; reflexivity.
Qed.

(** C7 at failing inputs: with [max_items = 0] the loop appends the first
    unknown item before it tests the length, so one entry is returned; and
    with [max_items] above the number of unknown items of positive score
    (here none) the list is filled up with unknown items of score 0. *)
Theorem recommend_items_boundaries_fail :
  recommend_items (mk_recommender (Some similarity_by_column)) (interactions [] []) 0 0 true
    = Ok [WithScore 3 (9#10)] /\
  recommend_items (mk_recommender (Some similarity_by_row)) (interactions [] []) 0 5 true
    = Ok [WithScore 3 0; WithScore 1 0].
Proof. split; reflexivity. Qed.

(** ** Calls before fitting *)

(** C6. Without a similarity matrix every recommendation call raises the
    error "you must call fit() before trying to recommend items"; none
    returns a list. *)
Theorem not_fitted_raises (dataset : csr_matrix) (u user_start user_end max_items : nat)
        (return_scores : bool) :
  recommend_items (mk_recommender None) dataset u max_items return_scores
    = Raise not_fitted /\
  range_recommend_items (mk_recommender None) dataset user_start user_end max_items
                        return_scores = Raise not_fitted /\
  batch_recommend_items (mk_recommender None) dataset max_items return_scores
    = Raise not_fitted.
Proof. repeat split; reflexivity. Qed.

(** ** Loading a similarity matrix *)

Lemma csr_from_coo_shape (dat : list Q) (row col : list Z) (shp : nat * nat)
      (m : csr_matrix) :
  csr_from_coo dat row col shp = Ok m -> shape m = shp.
Proof.
  unfold csr_from_coo.
  destruct (forallb (coo_in_bounds shp) (combine row col)); [|discriminate].
  intros H. inversion H; subst. reflexivity.
Qed.

Lemma load_similarity_matrix_Ok (self self' : recommender)
      (file : list (list Q)) (num_items : nat) (offset : Z) :
  load_similarity_matrix self file num_items offset = (self', Ok tt) ->
  exists m, similarity_matrix self' = Some m /\ shape m = (num_items, num_items).
Proof.
  unfold load_similarity_matrix.
  destruct (bind (loadtxt file) _) as [m|e] eqn:E; intros H; inversion H; subst.
  exists m. split; [reflexivity|].
  apply bind_Ok in E. destruct E as [y [_ E]].
  apply bind_Ok in E. destruct E as [row [_ E]].
  apply bind_Ok in E. destruct E as [col [_ E]].
  apply bind_Ok in E. destruct E as [dat [_ E]].
  eapply csr_from_coo_shape. exact E.
Qed.

Lemma loadtxt_triplets (num_items : nat) (offset : Z) (file : list (list Q)) :
  2 <= List.length file ->
  Forall (line_in_range num_items offset) file ->
  loadtxt file = Ok (Table 3 file).
Proof.
  intros Hlen Hall.
  destruct file as [|first rest]; simpl in Hlen; [lia|].
  unfold loadtxt.
  inversion Hall as [|x t [Hfirst _] Hrest]; subst.
  rewrite Hfirst.
  replace (forallb (fun l => List.length l =? 3) rest) with true.
  - destruct rest; simpl in Hlen; [lia|]. reflexivity.
  - symmetry. apply forallb_forall. intros l Hl.
    rewrite Forall_forall in Hrest. destruct (Hrest l Hl) as [H3 _].
    rewrite H3. reflexivity.
Qed.

Lemma triplets_in_bounds (num_items : nat) (offset : Z) (file : list (list Q)) :
  Forall (line_in_range num_items offset) file ->
  forallb (coo_in_bounds (num_items, num_items))
          (combine (map (fun x => (int32 x - offset)%Z) (map (fun l => nth 0 l 0%Q) file))
                   (map (fun x => (int32 x - offset)%Z) (map (fun l => nth 1 l 0%Q) file)))
  = true.
Proof.
  induction 1 as [|line t [_ [Hr Hc]] _ IH]; simpl; [reflexivity|].
  rewrite IH, andb_true_r.
  unfold coo_in_bounds. simpl.
  repeat (apply andb_true_intro; split);
    try (apply Z.leb_le; lia); apply Z.ltb_lt; lia.
Qed.

(** C8. The source [(1,2,0.5),(2,1,0.5)] loaded with offset 1 and
    [num_items = 3] gives a 3x3 matrix whose entries are 0.5 at (0,1) and
    (1,0) and zero everywhere else, row 2 and column 2 included.  In
    general, a load that succeeds installs a matrix of shape
    [(num_items, num_items)], and a source of at least two lines whose
    indices all lie in range does load, whether or not it mentions the
    highest item. *)
Theorem load_similarity_matrix_shape (self : recommender) :
  (exists m,
      load_similarity_matrix self triplet_source 3 1 = (mk_recommender (Some m), Ok tt) /\
      shape m = (3, 3) /\
      forall i k, (entry m i k ==
                   if ((i =? 0) && (k =? 1)) || ((i =? 1) && (k =? 0)) then 1#2 else 0)%Q) /\
  (forall file num_items offset self',
      load_similarity_matrix self file num_items offset = (self', Ok tt) ->
      exists m, similarity_matrix self' = Some m /\ shape m = (num_items, num_items)) /\
  (forall file num_items offset,
      2 <= List.length file ->
      Forall (line_in_range num_items offset) file ->
      exists m, load_similarity_matrix self file num_items offset
                  = (mk_recommender (Some m), Ok tt) /\
                shape m = (num_items, num_items)).
Proof.
  split; [|split].
  - eexists. split; [reflexivity|]. split; [reflexivity|].
    intros i k.
    destruct i as [|[|[|[|i]]]], k as [|[|[|k]]]; reflexivity.
  - intros file num_items offset self'. apply load_similarity_matrix_Ok.
  - intros file num_items offset Hlen Hall.
    unfold load_similarity_matrix.
    rewrite (loadtxt_triplets num_items offset file Hlen Hall). simpl.
    unfold csr_from_coo.
    rewrite (triplets_in_bounds num_items offset file Hall).
    eexists. split; reflexivity.
Qed.

Lemma load_similarity_matrix_shape_witness :
  2 <= List.length triplet_source /\
  Forall (line_in_range 5 1) triplet_source /\
  exists m, load_similarity_matrix (mk_recommender None) triplet_source 5 1
              = (mk_recommender (Some m), Ok tt) /\
            shape m = (5, 5).
Proof.
  assert (Hlen : 2 <= List.length triplet_source) by (simpl; lia).
  assert (Hall : Forall (line_in_range 5 1) triplet_source).
  { repeat constructor; simpl; lia. }
  split; [exact Hlen|]. split; [exact Hall|].
  exact (proj2 (proj2 (load_similarity_matrix_shape (mk_recommender None)))
               triplet_source 5 1%Z Hlen Hall).
Defined.

(** ** Fitting *)

Section Fit.
Context {strategy : ItemSimilarity}.

(** The loop stops at the first item for which the strategy raises, with
    that exception. *)
Lemma fit_loop_raises (dataset : csr_matrix) (js : list nat) (j : nat) (e : exn) :
  In j js ->
  compute_similarities (Some dataset) j = Raise e ->
  forall acc, exists j' e',
      In j' js /\ compute_similarities (Some dataset) j' = Raise e' /\
      fit_loop dataset js acc = Raise e'.
Proof.
  intros Hin Hj. induction js as [|a rest IH]; intros acc; [destruct Hin|].
  simpl. destruct (compute_similarities (Some dataset) a) as [w|e0] eqn:Ea.
  - destruct Hin as [->|Hin]; [congruence|].
    destruct (IH Hin (append_nonzero a w acc)) as [j' [e' [H1 [H2 H3]]]].
    exists j', e'. simpl. auto.
  - exists a, e0. simpl. auto.
Qed.

Lemma fit_outcome (self : recommender) (dataset : csr_matrix) :
  (exists m, fit self dataset = (mk_recommender (Some m), Ok tt) /\
             shape m = (snd (shape dataset), snd (shape dataset))) \/
  (exists e, fit self dataset = (self, Raise e)).
Proof.
  unfold fit.
  destruct (bind (fit_loop dataset _ _) _) as [m|e] eqn:E.
  - left. exists m. split; [reflexivity|].
    apply bind_Ok in E. destruct E as [[[dat row] col] [_ E]].
    eapply csr_from_coo_shape. exact E.
  - right. eauto.
Qed.

(** C9. If [compute_similarities] raises for some item during
    [fit(dataset)], then [fit] raises an exception raised by
    [compute_similarities] (the one of the first item that fails) and
    the recommender is left as it was: no matrix is installed, and a
    matrix held before is still held.  More generally every failure of
    [fit] leaves the state unchanged, and a success installs a matrix of
    shape [(num_items, num_items)]. *)
Theorem fit_atomic (self : recommender) (dataset : csr_matrix) :
  (forall j e,
      j < snd (shape dataset) ->
      compute_similarities (Some dataset) j = Raise e ->
      exists j' e',
        j' < snd (shape dataset) /\
        compute_similarities (Some dataset) j' = Raise e' /\
        fit self dataset = (self, Raise e')) /\
  (forall self' e, fit self dataset = (self', Raise e) -> self' = self) /\
  (forall self' , fit self dataset = (self', Ok tt) ->
      exists m, self' = mk_recommender (Some m) /\
                shape m = (snd (shape dataset), snd (shape dataset))).
Proof.
  split; [|split].
  - intros j e Hj He.
    assert (Hin : In j (seq 0 (snd (shape dataset)))) by (apply in_seq; lia).
    destruct (fit_loop_raises dataset _ j e Hin He ([], [], []))
      as [j' [e' [Hin' [He' Hloop]]]].
    exists j', e'. apply in_seq in Hin'.
    split; [lia|]. split; [exact He'|].
    unfold fit. rewrite Hloop. reflexivity.
  - intros self' e H.
    destruct (fit_outcome self dataset) as [[m [Hm _]]|[e' He']];
      rewrite H in *; congruence.
  - intros self' H.
    destruct (fit_outcome self dataset) as [[m [Hm Hs]]|[e' He']];
      rewrite H in *; [|congruence].
    exists m. split; [congruence|exact Hs].
Qed.

End Fit.

Lemma fit_atomic_witness :
  1 < snd (shape one_user) /\
  compute_similarities (ItemSimilarity := failing_strategy 1 [0; 1; 0]%Q) (Some one_user) 1
    = Raise (Exception "similarity failed") /\
  exists j' e',
    j' < snd (shape one_user) /\
    compute_similarities (ItemSimilarity := failing_strategy 1 [0; 1; 0]%Q) (Some one_user) j'
      = Raise e' /\
    fit (strategy := failing_strategy 1 [0; 1; 0]%Q)
        (mk_recommender (Some tied_similarity)) one_user
      = (mk_recommender (Some tied_similarity), Raise e').
Proof.
  assert (Hj : 1 < snd (shape one_user)) by (simpl; lia).
  split; [exact Hj|]. split; [reflexivity|].
  exact (proj1 (fit_atomic (strategy := failing_strategy 1 [0; 1; 0]%Q)
                           (mk_recommender (Some tied_similarity)) one_user)
               1 (Exception "similarity failed") Hj eq_refl).
Defined.

(** ** [argsort] in terms of the values *)

Lemma insert_map {A B : Type} (le : B -> B -> bool) (g : A -> B) (x : A) (l : list A) :
  insert le (g x) (map g l) = map g (insert (fun a b => le (g a) (g b)) x l).
Proof.
  induction l as [|y t IH]; simpl; [reflexivity|].
  destruct (le (g x) (g y)); simpl; [reflexivity|].
  now rewrite IH.
Qed.

Lemma sorted_map {A B : Type} (le : B -> B -> bool) (g : A -> B) (l : list A) :
  sorted le (map g l) = map g (sorted (fun a b => le (g a) (g b)) l).
Proof.
  induction l as [|x t IH]; simpl; [reflexivity|].
  now rewrite IH, insert_map.
Qed.

Lemma combine_seq (w : ndarray) (s : nat) :
  combine (seq s (List.length w)) w
  = map (fun i => (i, nth (i - s) w 0%Q)) (seq s (List.length w)).
Proof.
  revert s. induction w as [|x t IH]; intros s; simpl; [reflexivity|].
  rewrite Nat.sub_diag. f_equal.
  rewrite IH. apply map_ext_in.
  intros i Hi. apply in_seq in Hi.
  replace (i - s) with (S (i - S s)) by lia. reflexivity.
Qed.

Lemma enumerate_items (w : ndarray) :
  enumerate w = map (fun i => (i, item w i)) (seq 0 (List.length w)).
Proof.
  unfold enumerate. rewrite combine_seq.
  apply map_ext. intros i. rewrite Nat.sub_0_r. reflexivity.
Qed.

Lemma argsort_sorted (w : ndarray) :
  argsort w = sorted (fun i j => Qle_bool (item w i) (item w j)) (seq 0 (List.length w)).
Proof.
  unfold argsort. rewrite enumerate_items, sorted_map, map_map. simpl.
  apply map_id.
Qed.

Lemma argsort_ascending (w : ndarray) :
  StronglySorted (fun i j => (item w i <= item w j)%Q) (argsort w).
Proof.
  rewrite argsort_sorted.
  eapply StronglySorted_impl;
    [|apply (sorted_sorted (fun i j => Qle_bool (item w i) (item w j))
                           (fun a b => Qle_bool_total _ _)
                           (fun a b c => Qle_bool_trans _ _ _))].
  intros a b. apply Qle_bool_iff.
Qed.

(** ** Neighbour lookup *)

Section GetSimilarItems.
Context {strategy : ItemSimilarity}.

Let descending (a b : nat * Q) : Prop := (snd b <= snd a)%Q.

Lemma held_matrix_descending (w : list (nat * Q)) (k : nat) :
  StronglySorted descending
    (filter (fun p => positive (snd p)) (firstn k (sorted_by_key_reverse snd w))).
Proof.
  apply StronglySorted_filter, StronglySorted_firstn.
  unfold sorted_by_key_reverse.
  eapply StronglySorted_impl;
    [|apply (sorted_reverse_sorted (fun a b : nat * Q => Qle_bool (snd a) (snd b))
                                   (fun a b => Qle_bool_total _ _)
                                   (fun a b c => Qle_bool_trans _ _ _))].
  intros a b. apply Qle_bool_iff.
Qed.

Lemma fallback_descending (w : ndarray) (k : nat) :
  StronglySorted descending
    (map (fun i => (i, item w i))
         (filter (fun i => positive (item w i)) (firstn k (rev (argsort w))))).
Proof.
  eapply StronglySorted_map;
    [|apply StronglySorted_filter, StronglySorted_firstn,
      (StronglySorted_rev _ _ (argsort_ascending w))].
  intros a b H. exact H.
Qed.

Lemma filter_length_le {A : Type} (f : A -> bool) (l : list A) :
  List.length (filter f l) <= List.length l.
Proof.
  induction l as [|x t IH]; simpl; [lia|].
  destruct (f x); simpl; lia.
Qed.

(** C4, amended.  [get_similar_items(j, k)] returns at most [k] pairs,
    every score strictly positive, in descending order of score where
    equal scores may follow one another; this holds with a similarity
    matrix held and in the fallback that calls [compute_similarities].
    The call returns whenever [j] is a row of the held matrix or, without
    a matrix, whenever [compute_similarities] returns. *)
Theorem get_similar_items_descending (self : recommender) (j k : nat)
        (dataset : option csr_matrix) :
  (forall l, get_similar_items self j k dataset = Ok l ->
             List.length l <= k /\
             StronglySorted (fun a b => (snd b <= snd a)%Q) l /\
             Forall (fun p => (0 < snd p)%Q) l) /\
  (forall sm, similarity_matrix self = Some sm -> j < fst (shape sm) ->
              exists l, get_similar_items self j k dataset = Ok l) /\
  (forall w, similarity_matrix self = None -> compute_similarities dataset j = Ok w ->
             exists l, get_similar_items self j k dataset = Ok l).
Proof.
  unfold get_similar_items.
  split; [|split].
  - intros l H. destruct (similarity_matrix self) as [sm|].
    + apply bind_Ok in H. destruct H as [sj [_ H]]. inversion H; subst l.
      split; [|split].
      * etransitivity; [apply filter_length_le|apply firstn_le_length].
      * apply held_matrix_descending.
      * apply Forall_forall. intros p Hp.
        apply filter_In in Hp. apply positive_iff, Hp.
    + apply bind_Ok in H. destruct H as [w [_ H]]. inversion H; subst l.
      split; [|split].
      * rewrite length_map.
        etransitivity; [apply filter_length_le|apply firstn_le_length].
      * apply fallback_descending.
      * apply Forall_forall. intros p Hp.
        apply in_map_iff in Hp. destruct Hp as [i [Hi Hp]]. subst p.
        apply filter_In in Hp. apply positive_iff, Hp.
  - intros sm Hsm Hj. rewrite Hsm. unfold getrow.
    apply Nat.ltb_lt in Hj. rewrite Hj. simpl. eauto.
  - intros w Hnone Hw. rewrite Hnone, Hw. simpl. eauto.
Qed.

End GetSimilarItems.

(** C4, as stated: two items of equal similarity are both returned, so
    the scores are not strictly descending. *)
Lemma get_similar_items_ties :
  get_similar_items (strategy := constant_strategy []) (mk_recommender (Some tied_similarity))
                    0 2 None
    = Ok [(1, 1#2); (2, 1#2)] /\
  ~ StronglySorted (fun a b : nat * Q => (snd b < snd a)%Q) [(1, 1#2); (2, 1#2)].
Proof.
  split; [reflexivity|].
  intros H. inversion H as [|a l _ Hall]; subst.
  inversion Hall as [|b l' Hlt _]; subst.
  revert Hlt. apply Qlt_irrefl.
Qed.

Lemma get_similar_items_descending_witness :
  (List.length [(1, 1#2); (2, 1#2)] <= 2 /\
   StronglySorted (fun a b : nat * Q => (snd b <= snd a)%Q) [(1, 1#2); (2, 1#2)] /\
   Forall (fun p : nat * Q => (0 < snd p)%Q) [(1, 1#2); (2, 1#2)]) /\
  (exists l, get_similar_items (strategy := constant_strategy [])
                               (mk_recommender (Some tied_similarity)) 0 2 None = Ok l) /\
  (exists l, get_similar_items (strategy := constant_strategy [1#3; 0; 1#2]%Q)
                               (mk_recommender None) 0 2 None = Ok l).
Proof.
  split; [|split].
  - apply (proj1 (get_similar_items_descending (strategy := constant_strategy [])
                    (mk_recommender (Some tied_similarity)) 0 2 None)).
    reflexivity.
  - apply (proj1 (proj2 (get_similar_items_descending (strategy := constant_strategy [])
                           (mk_recommender (Some tied_similarity)) 0 2 None))
                 tied_similarity); [reflexivity|simpl; lia].
  - apply (proj2 (proj2 (get_similar_items_descending
                           (strategy := constant_strategy [1#3; 0; 1#2]%Q)
                           (mk_recommender None) 0 2 None))
                 [1#3; 0; 1#2]%Q); reflexivity.
Defined.

(** ** Order of the batch and range selections *)

Lemma tuple_le_spec (a b : Q * nat) :
  tuple_le a b = true <->
  (fst a < fst b)%Q \/ ((fst a == fst b)%Q /\ snd a <= snd b).
Proof.
  unfold tuple_le.
  destruct (Qcompare (fst a) (fst b)) eqn:E.
  - apply Qeq_alt in E. rewrite Nat.leb_le. split.
    + intros H. right. split; assumption.
    + intros [H|[_ H]]; [|exact H].
      rewrite E in H. exfalso. revert H. apply Qlt_irrefl.
  - apply Qlt_alt in E. split; [intros _; left; exact E|reflexivity].
  - apply Qgt_alt in E. split; [discriminate|].
    intros [H|[H _]]; exfalso.
    + apply (Qlt_irrefl (fst a)). eapply Qlt_trans; eassumption.
    + rewrite H in E. revert E. apply Qlt_irrefl.
Qed.

Lemma tuple_le_total (a b : Q * nat) : tuple_le a b = true \/ tuple_le b a = true.
Proof.
  rewrite !tuple_le_spec.
  destruct (Q_dec (fst a) (fst b)) as [[H|H]|H].
  - left. left. exact H.
  - right. left. exact H.
  - destruct (Nat.le_ge_cases (snd a) (snd b)).
    + left. right. split; assumption.
    + right. right. split; [symmetry|]; assumption.
Qed.

Lemma tuple_le_trans (a b c : Q * nat) :
  tuple_le a b = true -> tuple_le b c = true -> tuple_le a c = true.
Proof.
  rewrite !tuple_le_spec.
  intros [H1|[H1 L1]] [H2|[H2 L2]].
  - left. eapply Qlt_trans; eassumption.
  - left. rewrite <- H2. exact H1.
  - left. rewrite H1. exact H2.
  - right. split; [rewrite H1; exact H2|lia].
Qed.

Lemma tuple_le_strict (a b : Q * nat) :
  tuple_le b a = true -> snd a <> snd b -> tuple_gt a b.
Proof.
  rewrite tuple_le_spec. unfold tuple_gt.
  intros [H|[H L]] Hne.
  - left. exact H.
  - right. split; [symmetry; exact H|lia].
Qed.

Lemma sorted_distinct_strict (l : list (Q * nat)) :
  StronglySorted (fun a b => tuple_le b a = true) l ->
  NoDup (map snd l) ->
  StronglySorted tuple_gt l.
Proof.
  induction 1 as [|a t Hs IH Hall]; intros Hnd; [constructor|].
  simpl in Hnd. inversion Hnd as [|x xs Hnotin Hnd']; subst.
  constructor; [now apply IH|].
  rewrite Forall_forall in *. intros b Hb.
  apply tuple_le_strict; [now apply Hall|].
  intros E. apply Hnotin. rewrite E. apply in_map. exact Hb.
Qed.

Lemma combine_snd_fst {A B : Type} (l : list (A * B)) :
  combine (map snd l) (map fst l) = map (fun p => (snd p, fst p)) l.
Proof.
  induction l as [|[a b] t IH]; simpl; [reflexivity|now rewrite IH].
Qed.

Lemma select_row_ranked (ru : csr_matrix) (max_items : nat) :
  NoDup (indices ru) ->
  StronglySorted ranked_before (select_row ru max_items true).
Proof.
  intros Hnd. unfold select_row.
  apply StronglySorted_firstn.
  eapply StronglySorted_map with (R := tuple_gt); [intros a b H; exact H|].
  apply StronglySorted_filter, sorted_distinct_strict.
  - apply sorted_reverse_sorted; [apply tuple_le_total|apply tuple_le_trans].
  - eapply Permutation_NoDup.
    + apply Permutation_map. symmetry. apply sorted_reverse_perm.
    + unfold data, indices in *. rewrite combine_snd_fst, map_map. simpl. exact Hnd.
Qed.

Lemma select_row_items (ru : csr_matrix) (max_items : nat) :
  map rec_item (select_row ru max_items false) = map rec_item (select_row ru max_items true).
Proof.
  unfold select_row. rewrite <- !firstn_map, !map_map. reflexivity.
Qed.

(** the stored columns of a row of a product are distinct *)
Lemma NoDup_map_fst_filter {A B : Type} (f : A * B -> bool) (l : list (A * B)) :
  NoDup (map fst l) -> NoDup (map fst (filter f l)).
Proof.
  induction l as [|p t IH]; simpl; intros H; [constructor|].
  inversion H as [|x xs Hnotin Hnd]; subst.
  destruct (f p); simpl; [|now apply IH].
  constructor; [|now apply IH].
  intros Hin. apply Hnotin.
  apply in_map_iff in Hin. destruct Hin as [q [Hq Hin]].
  apply filter_In in Hin. rewrite <- Hq. apply in_map, Hin.
Qed.

Lemma sparsify_NoDup (dense : list Q) : NoDup (map fst (sparsify dense)).
Proof.
  unfold sparsify. apply NoDup_map_fst_filter.
  rewrite enumerate_items, map_map. simpl. rewrite map_id. apply seq_NoDup.
Qed.

Lemma matmul_row_NoDup (A B r : csr_matrix) (n : nat) :
  matmul A B = Ok r -> NoDup (map fst (row_of r n)).
Proof.
  unfold matmul. destruct (snd (shape A) =? fst (shape B)); [|discriminate].
  intros H. inversion H; subst. unfold row_of. simpl.
  destruct (nth_error (rows A) n) as [arow|] eqn:E.
  - erewrite nth_error_nth by (rewrite nth_error_map, E; reflexivity).
    apply sparsify_NoDup.
  - rewrite nth_overflow; [constructor|].
    rewrite length_map. apply nth_error_None. exact E.
Qed.

Lemma masked_row_indices (r train : csr_matrix) (n : nat) :
  row_of (_zero_known_item_scores r train) n = [] \/
  map fst (row_of (_zero_known_item_scores r train) n) = map fst (row_of r n).
Proof.
  unfold row_of, _zero_known_item_scores. cbn [rows].
  destruct (nth_error (combine (rows r) (rows train)) n) as [[x y]|] eqn:E;
    unfold sparse_row in *.
  - right.
    erewrite nth_error_nth by (rewrite nth_error_map, E; reflexivity).
    apply nth_error_combine in E. destruct E as [Ex _].
    erewrite (nth_error_nth (rows r)) by exact Ex.
    cbn [fst snd]. rewrite map_map. apply map_ext.
    intros p. destruct (Qneqb (row_get y (fst p)) 0); reflexivity.
  - left. apply nth_overflow.
    rewrite length_map. apply nth_error_None. exact E.
Qed.

Lemma selection_ranked (A B r dataset : csr_matrix) (a b max_items : nat)
      (ls : list (list recommendation)) :
  matmul A B = Ok r ->
  _get_recommendations_from_predictions r dataset a b max_items true = Ok ls ->
  Forall (StronglySorted ranked_before) ls.
Proof.
  intros Hr H. apply Forall_forall. intros l Hl.
  apply In_nth_error in Hl. destruct Hl as [n Hn].
  destruct (get_recommendations_nth _ _ _ _ _ _ _ _ _ H Hn) as [ru [Hru ->]].
  apply select_row_ranked.
  unfold indices. rewrite (getrow_rows _ _ _ Hru).
  destruct (masked_row_indices r (slice_rows dataset a b) n) as [E|E]; rewrite E.
  - constructor.
  - eapply matmul_row_NoDup. exact Hr.
Qed.

Lemma selection_items (r dataset : csr_matrix) (a b max_items : nat)
      (ls : list (list recommendation)) :
  _get_recommendations_from_predictions r dataset a b max_items false = Ok ls ->
  exists ls',
    _get_recommendations_from_predictions r dataset a b max_items true = Ok ls' /\
    map (map rec_item) ls = map (map rec_item) ls'.
Proof.
  unfold _get_recommendations_from_predictions.
  generalize (_zero_known_item_scores r (slice_rows dataset a b)) as masked.
  intros masked. generalize (seq a (b - a)) as us. intros us. revert ls.
  induction us as [|u t IH]; cbn [mapM]; intros ls H.
  - inversion H; subst. exists []. split; reflexivity.
  - apply bind_Ok in H. destruct H as [l [Hl H]].
    apply bind_Ok in H. destruct H as [rest [Hrest H]].
    inversion H; subst ls.
    apply bind_Ok in Hl. destruct Hl as [ru [Hru Hl]]. inversion Hl; subst l.
    destruct (IH rest Hrest) as [rest' [Hrest' Hmap]].
    rewrite Hru. cbn [bind]. rewrite Hrest'. cbn [bind].
    eexists. split; [reflexivity|].
    cbn [map]. f_equal; [apply select_row_items|exact Hmap].
Qed.

(** A list sorted by an asymmetric relation is determined by its elements. *)
Lemma sorted_unique {A : Type} (R : A -> A -> Prop) (l1 l2 : list A) :
  (forall a b, R a b -> R b a -> False) ->
  StronglySorted R l1 -> StronglySorted R l2 -> Permutation l1 l2 -> l1 = l2.
Proof.
  intros Hasym H1. revert l2.
  induction H1 as [|a t1 Hs1 IH Hall1]; intros l2 H2 Hp.
  - apply Permutation_nil in Hp. now subst.
  - destruct H2 as [|b t2 Hs2 Hall2].
    + symmetry in Hp. apply Permutation_nil in Hp. discriminate.
    + assert (Ha : In a (b :: t2)) by (eapply Permutation_in; [exact Hp|now left]).
      assert (Hb : In b (a :: t1))
        by (eapply Permutation_in; [symmetry; exact Hp|now left]).
      rewrite Forall_forall in Hall1, Hall2.
      assert (E : a = b).
      { destruct Ha as [Ha|Ha]; [now symmetry|].
        destruct Hb as [Hb|Hb]; [exact Hb|].
        exfalso. eapply Hasym; [apply Hall1|apply Hall2]; eassumption. }
      subst b. f_equal. apply IH; [exact Hs2|].
      eapply Permutation_cons_inv. exact Hp.
Qed.

Lemma tuple_gt_asym (a b : Q * nat) : tuple_gt a b -> tuple_gt b a -> False.
Proof.
  unfold tuple_gt. intros [H1|[H1 L1]] [H2|[H2 L2]].
  - apply (Qlt_irrefl (fst a)). eapply Qlt_trans; eassumption.
  - rewrite H2 in H1. revert H1. apply Qlt_irrefl.
  - rewrite H1 in H2. revert H2. apply Qlt_irrefl.
  - lia.
Qed.

Lemma sorted_reverse_strict (entries : list (Q * nat)) :
  NoDup (map snd entries) ->
  StronglySorted tuple_gt (sorted_reverse tuple_le entries).
Proof.
  intros Hnd. apply sorted_distinct_strict.
  - apply sorted_reverse_sorted; [apply tuple_le_total|apply tuple_le_trans].
  - eapply Permutation_NoDup; [|exact Hnd].
    apply Permutation_map. symmetry. apply sorted_reverse_perm.
Qed.

(** The selection of one user depends on which entries the score row
    stores, not on the order in which it stores them. *)
Lemma select_row_permutation (ru ru' : csr_matrix) (max_items : nat) (return_scores : bool) :
  NoDup (indices ru) ->
  Permutation (concat (rows ru)) (concat (rows ru')) ->
  select_row ru max_items return_scores = select_row ru' max_items return_scores.
Proof.
  intros Hnd Hp. unfold select_row.
  assert (E : sorted_reverse tuple_le (combine (data ru) (indices ru))
              = sorted_reverse tuple_le (combine (data ru') (indices ru'))).
  { unfold data, indices in *. rewrite !combine_snd_fst.
    assert (Hp' : Permutation (map (fun p : nat * Q => (snd p, fst p)) (concat (rows ru)))
                              (map (fun p : nat * Q => (snd p, fst p)) (concat (rows ru'))))
      by (apply Permutation_map; exact Hp).
    assert (Hnd1 : NoDup (map snd (map (fun p : nat * Q => (snd p, fst p))
                                       (concat (rows ru)))))
      by (rewrite map_map; exact Hnd).
    apply (sorted_unique tuple_gt).
    - apply tuple_gt_asym.
    - apply sorted_reverse_strict. exact Hnd1.
    - apply sorted_reverse_strict.
      eapply Permutation_NoDup; [|exact Hnd1].
      apply Permutation_map. exact Hp'.
    - rewrite !sorted_reverse_perm. exact Hp'. }
  rewrite E. reflexivity.
Qed.

Lemma projection_Ok {A : Type} (self : recommender) (left : csr_matrix)
      (k : csr_matrix -> result A) (a : A) :
  bind (try_except_AttributeError
          (sm <- getattr_similarity_matrix self ;; matmul left (transpose sm))
          (Raise not_fitted)) k = Ok a ->
  exists sm r, similarity_matrix self = Some sm /\
               matmul left (transpose sm) = Ok r /\
               try_except_AttributeError
                 (sm <- getattr_similarity_matrix self ;; matmul left (transpose sm))
                 (Raise not_fitted) = Ok r /\
               k r = Ok a.
Proof.
  intros H. apply bind_Ok in H. destruct H as [r' [Hr Hk]].
  pose proof (try_except_Ok _ _ _ Hr) as Hb.
  apply bind_Ok in Hb. destruct Hb as [sm [Hsm Hm]].
  exists sm, r'. repeat split; try assumption.
  unfold getattr_similarity_matrix in Hsm.
  destruct (similarity_matrix self); congruence.
Qed.

(** C10. In every list returned by [range_recommend_items] and
    [batch_recommend_items] the entries are in strictly descending order of
    the pair (score, index): a higher score comes first, and entries of
    equal score come in descending order of item index.  Without scores
    the items are those of the scored lists, in the same order.  The
    selection of one user depends only on the entries of the masked score
    row, whatever their order of storage. *)
Theorem selection_ties_by_index_descending (self : recommender) (dataset : csr_matrix) :
  (forall user_start user_end max_items ls,
      range_recommend_items self dataset user_start user_end max_items true = Ok ls ->
      Forall (StronglySorted ranked_before) ls) /\
  (forall max_items ls,
      batch_recommend_items self dataset max_items true = Ok ls ->
      Forall (StronglySorted ranked_before) ls) /\
  (forall user_start user_end max_items ls,
      range_recommend_items self dataset user_start user_end max_items false = Ok ls ->
      exists ls',
        range_recommend_items self dataset user_start user_end max_items true = Ok ls' /\
        map (map rec_item) ls = map (map rec_item) ls') /\
  (forall max_items ls,
      batch_recommend_items self dataset max_items false = Ok ls ->
      exists ls',
        batch_recommend_items self dataset max_items true = Ok ls' /\
        map (map rec_item) ls = map (map rec_item) ls') /\
  (forall ru ru' max_items return_scores,
      NoDup (indices ru) ->
      Permutation (concat (rows ru)) (concat (rows ru')) ->
      select_row ru max_items return_scores = select_row ru' max_items return_scores).
Proof.
  split; [|split; [|split; [|split]]].
  - intros a b max_items ls H.
    apply projection_Ok in H. destruct H as [sm [r [_ [Hm [_ H]]]]].
    exact (selection_ranked _ _ _ _ _ _ _ _ Hm H).
  - intros max_items ls H.
    apply projection_Ok in H. destruct H as [sm [r [_ [Hm [_ H]]]]].
    exact (selection_ranked _ _ _ _ _ _ _ _ Hm H).
  - intros a b max_items ls H.
    apply projection_Ok in H. destruct H as [sm [r [_ [_ [Hr H]]]]].
    unfold range_recommend_items. rewrite Hr. cbn [bind].
    apply selection_items. exact H.
  - intros max_items ls H.
    apply projection_Ok in H. destruct H as [sm [r [_ [_ [Hr H]]]]].
    unfold batch_recommend_items. rewrite Hr. cbn [bind].
    apply selection_items. exact H.
  - apply select_row_permutation.
Qed.

Lemma selection_ties_by_index_descending_witness :
  batch_recommend_items (mk_recommender (Some tied_scores_similarity)) one_user 10 true
    = Ok [[WithScore 2 (1#2); WithScore 1 (1#2)]] /\
  Forall (StronglySorted ranked_before) [[WithScore 2 (1#2); WithScore 1 (1#2)]] /\
  Forall (StronglySorted ranked_before) [[WithScore 2 (1#2)]].
Proof.
  destruct (selection_ties_by_index_descending
              (mk_recommender (Some tied_scores_similarity)) one_user)
    as [Hrange [Hbatch _]].
  split; [reflexivity|]. split.
  - apply (Hbatch 10). reflexivity.
  - apply (Hrange 0 1 1). reflexivity.
Defined.

(** The batch and range selections keep strictly positive scores only. *)
Lemma selection_scores_positive (r dataset : csr_matrix) (a b max_items : nat)
      (return_scores : bool) (ls : list (list recommendation)) (l : list recommendation)
      (i : nat) (v : Q) :
  _get_recommendations_from_predictions r dataset a b max_items return_scores = Ok ls ->
  In l ls -> In (WithScore i v) l -> (0 < v)%Q.
Proof.
  intros H Hl Hx.
  apply In_nth_error in Hl. destruct Hl as [n Hn].
  destruct (get_recommendations_nth _ _ _ _ _ _ _ _ _ H Hn) as [ru [_ ->]].
  destruct return_scores.
  - apply select_row_In in Hx. destruct Hx as [v' [_ [Hpos Hv]]].
    specialize (Hv eq_refl). inversion Hv; subst. exact Hpos.
  - unfold select_row in Hx. apply in_firstn, in_map_iff in Hx.
    destruct Hx as [vi [Hvi _]]. discriminate.
Qed.

(** ** The calls return

    With a matrix held whose width is the width of the dataset, the three
    recommendation calls return for every user, respectively every range,
    of the dataset. *)

Lemma mapM_length {A B : Type} (f : A -> result B) (l : list A) (ls : list B) :
  mapM f l = Ok ls -> List.length ls = List.length l.
Proof.
  revert ls. induction l as [|a t IH]; simpl; intros ls H.
  - inversion H. reflexivity.
  - apply bind_Ok in H. destruct H as [b [_ H]].
    apply bind_Ok in H. destruct H as [bs [Hbs H]].
    inversion H; subst. simpl. f_equal. now apply IH.
Qed.

Lemma recommend_items_returns (self : recommender) (sm dataset : csr_matrix)
      (u max_items : nat) (return_scores : bool) :
  similarity_matrix self = Some sm ->
  snd (shape sm) = snd (shape dataset) ->
  u < fst (shape dataset) ->
  exists l, recommend_items self dataset u max_items return_scores = Ok l.
Proof.
  intros Hsm Hw Hu.
  unfold recommend_items, getattr_similarity_matrix, getrow, matmul.
  apply Nat.ltb_lt in Hu. rewrite Hsm, Hu. simpl.
  rewrite Hw, Nat.eqb_refl. simpl. eauto.
Qed.

Lemma get_recommendations_returns (r dataset : csr_matrix) (a b max_items : nat)
      (return_scores : bool) :
  b - a <= fst (shape r) ->
  exists ls,
    _get_recommendations_from_predictions r dataset a b max_items return_scores = Ok ls /\
    List.length ls = b - a.
Proof.
  intros Hr. unfold _get_recommendations_from_predictions.
  destruct (mapM_total
              (fun u => ru <- getrow (_zero_known_item_scores r (slice_rows dataset a b))
                                     (u - a) ;;
                        Ok (select_row ru max_items return_scores))
              (seq a (b - a))) as [ls Hls].
  - intros u Hu. apply in_seq in Hu. unfold getrow. simpl.
    replace (u - a <? fst (shape r)) with true by (symmetry; apply Nat.ltb_lt; lia).
    simpl. eauto.
  - exists ls. split; [exact Hls|].
    rewrite (mapM_length _ _ _ Hls). apply length_seq.
Qed.

Lemma batch_recommend_items_returns (self : recommender) (sm dataset : csr_matrix)
      (max_items : nat) (return_scores : bool) :
  similarity_matrix self = Some sm ->
  snd (shape sm) = snd (shape dataset) ->
  exists ls, batch_recommend_items self dataset max_items return_scores = Ok ls /\
             List.length ls = fst (shape dataset).
Proof.
  intros Hsm Hw.
  unfold batch_recommend_items, getattr_similarity_matrix, matmul.
  rewrite Hsm. simpl. rewrite Hw, Nat.eqb_refl. simpl.
  destruct (get_recommendations_returns
              (mk_csr (fst (shape dataset), fst (shape sm))
                      (map (fun arow => sparsify (map (row_times arow (transpose sm))
                                                      (seq 0 (fst (shape sm)))))
                           (rows dataset)))
              dataset 0 (fst (shape dataset)) max_items return_scores) as [ls [Hls Hlen]].
  - simpl. lia.
  - exists ls. split; [exact Hls|]. rewrite Hlen. apply Nat.sub_0_r.
Qed.

Lemma range_recommend_items_returns (self : recommender) (sm dataset : csr_matrix)
      (user_start user_end max_items : nat) (return_scores : bool) :
  similarity_matrix self = Some sm ->
  snd (shape sm) = snd (shape dataset) ->
  user_end <= fst (shape dataset) ->
  exists ls, range_recommend_items self dataset user_start user_end max_items return_scores
               = Ok ls /\
             List.length ls = user_end - user_start.
Proof.
  intros Hsm Hw Hend.
  unfold range_recommend_items, getattr_similarity_matrix, matmul.
  rewrite Hsm. simpl. rewrite Hw, Nat.eqb_refl. simpl.
  apply get_recommendations_returns. simpl. lia.
Qed.

(** ** Range and batch agree

    On a dataset that stores as many rows as its shape says, the list for
    user [u] in a range is the list for [u] in the batch. *)

Lemma combine_map_self {A B : Type} (f : A -> B) (l : list A) :
  combine (map f l) l = map (fun x => (f x, x)) l.
Proof.
  induction l as [|x t IH]; simpl; [reflexivity|now rewrite IH].
Qed.

Lemma select_row_ext (ru ru' : csr_matrix) (max_items : nat) (return_scores : bool) :
  concat (rows ru) = concat (rows ru') ->
  select_row ru max_items return_scores = select_row ru' max_items return_scores.
Proof.
  intros E. unfold select_row, data, indices. rewrite E. reflexivity.
Qed.

Lemma masked_product_row (left right r : csr_matrix) (n : nat) :
  matmul left right = Ok r ->
  exists prod : sparse_row -> sparse_row,
    (prod = fun arow => sparsify (map (row_times arow right) (seq 0 (snd (shape right))))) /\
    row_of (_zero_known_item_scores r left) n
    = match nth_error (rows left) n with
      | Some x => map (fun p => if Qneqb (row_get x (fst p)) 0 then (fst p, 0%Q) else p)
                      (prod x)
      | None => []
      end.
Proof.
  unfold matmul. destruct (snd (shape left) =? fst (shape right)); [|discriminate].
  intros H. inversion H; subst r. clear H.
  eexists. split; [reflexivity|].
  unfold row_of, _zero_known_item_scores. cbn [rows].
  rewrite combine_map_self, map_map. cbn [fst snd].
  destruct (nth_error (rows left) n) as [x|] eqn:E.
  - erewrite nth_error_nth by (rewrite nth_error_map, E; reflexivity). reflexivity.
  - apply nth_overflow. rewrite length_map. apply nth_error_None. exact E.
Qed.

Lemma slice_rows_nth_in (m : csr_matrix) (a b u : nat) :
  a <= u -> u < b -> u < fst (shape m) ->
  nth_error (rows (slice_rows m a b)) (u - a) = nth_error (rows m) u.
Proof.
  intros Ha Hb Hu. unfold slice_rows. cbn [rows].
  rewrite nth_error_firstn.
  replace (u - a <? Nat.min b (fst (shape m)) - Nat.min a (fst (shape m))) with true
    by (symmetry; apply Nat.ltb_lt; lia).
  rewrite nth_error_skipn. f_equal. lia.
Qed.

Lemma slice_rows_all (m : csr_matrix) :
  List.length (rows m) = fst (shape m) ->
  slice_rows m 0 (fst (shape m)) = m.
Proof.
  intros Hwf. unfold slice_rows.
  rewrite Nat.min_id, Nat.min_0_l, Nat.sub_0_r. cbn [skipn].
  rewrite <- Hwf at 2. rewrite firstn_all.
  destruct m as [[nr nc] rs]. reflexivity.
Qed.

Lemma matmul_shape (A B r : csr_matrix) :
  matmul A B = Ok r -> shape r = (fst (shape A), snd (shape B)).
Proof.
  unfold matmul. destruct (snd (shape A) =? fst (shape B)); [|discriminate].
  intros H. inversion H. reflexivity.
Qed.

Lemma getrow_lt (m : csr_matrix) (n : nat) (ru : csr_matrix) :
  getrow m n = Ok ru -> n < fst (shape m).
Proof.
  unfold getrow. destruct (Nat.ltb_spec n (fst (shape m))); [auto|discriminate].
Qed.

Lemma range_entry_is_batch_entry (self : recommender) (dataset : csr_matrix)
      (user_start user_end max_items u : nat) (return_scores : bool)
      (range_recs batch_recs : list (list recommendation)) :
  List.length (rows dataset) = fst (shape dataset) ->
  range_recommend_items self dataset user_start user_end max_items return_scores
    = Ok range_recs ->
  batch_recommend_items self dataset max_items return_scores = Ok batch_recs ->
  user_start <= u -> u < user_end ->
  nth_error range_recs (u - user_start) = nth_error batch_recs u.
Proof.
  intros Hwf Hrange Hbatch Ha Hb.
  apply projection_Ok in Hrange. destruct Hrange as [sm [r [Hsm [Hr [_ Hrange]]]]].
  apply projection_Ok in Hbatch. destruct Hbatch as [sm' [r' [Hsm' [Hr' [_ Hbatch]]]]].
  assert (sm' = sm) by congruence.
  subst sm'.
  assert (Hrows : fst (shape r') = fst (shape dataset))
    by (rewrite (matmul_shape _ _ _ Hr'); reflexivity).
  rewrite Hrows in Hbatch.
  assert (Hrange_len : List.length range_recs = user_end - user_start).
  { unfold _get_recommendations_from_predictions in Hrange.
    rewrite (mapM_length _ _ _ Hrange). apply length_seq. }
  destruct (nth_error range_recs (u - user_start)) as [l|] eqn:El;
    [|apply nth_error_None in El; lia].
  destruct (get_recommendations_nth _ _ _ _ _ _ _ _ _ Hrange El) as [ru [Hru ->]].
  assert (Hu : u < fst (shape dataset)).
  { apply getrow_lt in Hru.
    change (u - user_start < fst (shape r)) in Hru.
    rewrite (matmul_shape _ _ _ Hr) in Hru. simpl in Hru. lia. }
  assert (Hbatch_len : List.length batch_recs = fst (shape dataset)).
  { unfold _get_recommendations_from_predictions in Hbatch.
    rewrite (mapM_length _ _ _ Hbatch), length_seq. lia. }
  destruct (nth_error batch_recs u) as [l'|] eqn:El';
    [|apply nth_error_None in El'; lia].
  destruct (get_recommendations_nth _ _ _ _ _ _ _ _ _ Hbatch El') as [ru' [Hru' ->]].
  f_equal. apply select_row_ext.
  rewrite (getrow_rows _ _ _ Hru), (getrow_rows _ _ _ Hru').
  rewrite (slice_rows_all dataset Hwf).
  destruct (masked_product_row _ _ _ (u - user_start) Hr) as [prod [Hprod ->]].
  destruct (masked_product_row _ _ _ u Hr') as [prod' [Hprod' ->]].
  rewrite slice_rows_nth_in by assumption.
  subst prod prod'. reflexivity.
Qed.


(** * Further properties of the module *)

(** ** [recommend_items]: outcome and shape of the result *)

Lemma length_concat_singletons {A B : Type} (g : A -> B) (l : list A) :
  List.length (concat (map (fun x => [g x]) l)) = List.length l.
Proof.
  induction l as [|x t IH]; simpl; [reflexivity|now rewrite IH].
Qed.

(** Either the call raises, whatever [max_items] and [return_scores] are,
    or there is one score vector, with one score per row of the similarity
    matrix, from which every result is read. *)
Lemma recommend_items_cases (self : recommender) (dataset : csr_matrix) (u : nat) :
  (exists e, forall max_items return_scores,
        recommend_items self dataset u max_items return_scores = Raise e) \/
  (exists sm r,
      similarity_matrix self = Some sm /\
      List.length r = List.length (rows sm) /\
      forall max_items return_scores,
        recommend_items self dataset u max_items return_scores
        = Ok (firstn (Nat.max 1 max_items)
                     (map (make_rec r return_scores)
                          (filter (unknown (map fst (row_of dataset u)))
                                  (rev (argsort r)))))).
Proof.
  unfold recommend_items, getattr_similarity_matrix, getrow, matmul.
  destruct (similarity_matrix self) as [sm|]; [|left; eexists; reflexivity].
  destruct (u <? fst (shape dataset)); [|left; eexists; reflexivity].
  cbn [bind shape transpose fst snd].
  destruct (snd (shape sm) =? snd (shape dataset)); [|left; eexists; reflexivity].
  right. exists sm. eexists. split; [reflexivity|]. split; cycle 1.
  - intros max_items return_scores.
    cbn [bind try_except_AttributeError].
    rewrite recommend_loop_closed. unfold indices. cbn [rows concat List.length].
    rewrite app_nil_r, Nat.sub_0_r. reflexivity.
  - unfold flatten, toarray. cbn [rows shape snd seq map].
    rewrite map_map, length_concat_singletons. reflexivity.
Qed.

Lemma argsort_perm (w : ndarray) : Permutation (argsort w) (seq 0 (List.length w)).
Proof. rewrite argsort_sorted. apply sorted_perm. Qed.

Lemma Permutation_filter_length {A : Type} (f : A -> bool) (l l' : list A) :
  Permutation l l' -> List.length (filter f l) = List.length (filter f l').
Proof.
  induction 1 as [|x l l' _ IH|x y l|l l' l'' _ IH1 _ IH2]; simpl.
  - reflexivity.
  - destruct (f x); simpl; now rewrite IH.
  - destruct (f x), (f y); reflexivity.
  - now rewrite IH1.
Qed.

(** X1. With a similarity matrix held, [recommend_items] returns exactly
    [min (max 1 max_items) n] entries, where [n] is the number of items
    (rows of the similarity matrix) that are not stored in the user's row:
    never more than [max 1 max_items], and never fewer while unknown items
    remain, whatever their scores. *)
Theorem recommend_items_length (self : recommender) (sm dataset : csr_matrix)
        (u max_items : nat) (return_scores : bool) (l : list recommendation) :
  similarity_matrix self = Some sm ->
  recommend_items self dataset u max_items return_scores = Ok l ->
  List.length l
  = Nat.min (Nat.max 1 max_items)
            (List.length (filter (unknown (map fst (row_of dataset u)))
                                 (seq 0 (List.length (rows sm))))).
Proof.
  intros Hsm H.
  destruct (recommend_items_cases self dataset u) as [[e He]|[sm' [r [Hsm' [Hlen Hr]]]]].
  - rewrite He in H. discriminate.
  - rewrite Hr in H. inversion H; subst l.
    assert (sm' = sm) by congruence. subst sm'.
    rewrite length_firstn, length_map. f_equal.
    rewrite <- Hlen. apply Permutation_filter_length.
    rewrite <- Permutation_rev. apply argsort_perm.
Qed.

Lemma recommend_items_length_witness :
  similarity_matrix (mk_recommender (Some similarity_by_row)) = Some similarity_by_row /\
  recommend_items (mk_recommender (Some similarity_by_row)) (interactions [] []) 0 5 true
    = Ok [WithScore 3 0; WithScore 1 0] /\
  List.length [WithScore 3 0; WithScore 1 0]
  = Nat.min (Nat.max 1 5)
            (List.length (filter (unknown (map fst (row_of (interactions [] []) 0)))
                                 (seq 0 (List.length (rows similarity_by_row))))).
Proof.
  split; [reflexivity|]. split; [reflexivity|].
  apply (recommend_items_length (mk_recommender (Some similarity_by_row))
                                similarity_by_row (interactions [] []) 0 5 true);
    reflexivity.
Defined.

(** X2. The items returned by [recommend_items] are pairwise distinct,
    each is the index of a row of the similarity matrix, and none is stored
    in the user's row of the dataset. *)
Theorem recommend_items_distinct_in_range (self : recommender) (sm dataset : csr_matrix)
        (u max_items : nat) (return_scores : bool) (l : list recommendation) :
  similarity_matrix self = Some sm ->
  recommend_items self dataset u max_items return_scores = Ok l ->
  NoDup (map rec_item l) /\
  Forall (fun x => rec_item x < List.length (rows sm) /\
                   ~ In (rec_item x) (map fst (row_of dataset u))) l.
Proof.
  intros Hsm H.
  destruct (recommend_items_cases self dataset u) as [[e He]|[sm' [r [Hsm' [Hlen Hr]]]]].
  - rewrite He in H. discriminate.
  - rewrite Hr in H. inversion H; subst l.
    assert (sm' = sm) by congruence. subst sm'.
    rewrite <- firstn_map, map_map.
    rewrite (map_ext _ (fun i => i) (rec_item_make_rec r return_scores)), map_id.
    split.
    + assert (Hnd : NoDup (filter (unknown (map fst (row_of dataset u)))
                                  (rev (argsort r)))).
      { apply NoDup_filter, NoDup_rev.
        eapply Permutation_NoDup; [symmetry; apply argsort_perm|apply seq_NoDup]. }
      rewrite <- (firstn_skipn (Nat.max 1 max_items)) in Hnd.
      eapply NoDup_app_remove_r. exact Hnd.
    + apply Forall_forall. intros x Hx.
      apply in_firstn, in_map_iff in Hx. destruct Hx as [i [<- Hi]].
      rewrite rec_item_make_rec.
      apply filter_In in Hi. destruct Hi as [Hi Hun].
      split; [|now apply unknown_not_in].
      apply in_rev in Hi.
      apply (Permutation_in _ (argsort_perm r)), in_seq in Hi. lia.
Qed.

Lemma recommend_items_distinct_in_range_witness :
  similarity_matrix (mk_recommender (Some similarity_by_column))
    = Some similarity_by_column /\
  recommend_items (mk_recommender (Some similarity_by_column)) (interactions [] []) 0 2 false
    = Ok [ItemOnly 3; ItemOnly 1] /\
  NoDup (map rec_item [ItemOnly 3; ItemOnly 1]) /\
  Forall (fun x => rec_item x < List.length (rows similarity_by_column) /\
                   ~ In (rec_item x) (map fst (row_of (interactions [] []) 0)))
         [ItemOnly 3; ItemOnly 1].
Proof.
  split; [reflexivity|]. split; [reflexivity|].
  apply (recommend_items_distinct_in_range (mk_recommender (Some similarity_by_column))
           similarity_by_column (interactions [] []) 0 2 false);
    reflexivity.
Defined.

(** X3. With [return_scores] set, the list returned by [recommend_items]
    is ordered by score, best first: no entry has a score above the score
    of an entry before it. *)
Theorem recommend_items_best_first (self : recommender) (dataset : csr_matrix)
        (u max_items : nat) (l : list recommendation) :
  recommend_items self dataset u max_items true = Ok l ->
  StronglySorted score_not_below l.
Proof.
  intros H.
  destruct (recommend_items_cases self dataset u) as [[e He]|[sm [r [_ [_ Hr]]]]].
  - rewrite He in H. discriminate.
  - rewrite Hr in H. inversion H; subst l.
    apply StronglySorted_firstn.
    eapply StronglySorted_map with (R := fun i j => (item r j <= item r i)%Q).
    + intros a b Hab. exact Hab.
    + apply StronglySorted_filter.
      apply (StronglySorted_rev _ _ (argsort_ascending r)).
Qed.

Lemma recommend_items_best_first_witness :
  recommend_items (mk_recommender (Some negative_similarity)) one_user 0 10 true
    = Ok [WithScore 2 0; WithScore 1 ((-1)#2)] /\
  StronglySorted score_not_below [WithScore 2 0; WithScore 1 ((-1)#2)].
Proof.
  split; [reflexivity|].
  apply (recommend_items_best_first (mk_recommender (Some negative_similarity))
                                    one_user 0 10).
  reflexivity.
Defined.

(** X4. [return_scores] does not change which items [recommend_items]
    returns nor their order: the call without scores returns the items of
    the call with scores. *)
Theorem recommend_items_same_items (self : recommender) (dataset : csr_matrix)
        (u max_items : nat) (l : list recommendation) :
  recommend_items self dataset u max_items false = Ok l ->
  exists l', recommend_items self dataset u max_items true = Ok l' /\
             l = map (fun x => ItemOnly (rec_item x)) l' /\
             Forall (fun x => rec_score x <> None) l'.
Proof.
  intros H.
  destruct (recommend_items_cases self dataset u) as [[e He]|[sm [r [_ [_ Hr]]]]].
  - rewrite He in H. discriminate.
  - rewrite Hr in H. inversion H; subst l.
    eexists. split; [apply Hr|]. split.
    + rewrite <- firstn_map, map_map. reflexivity.
    + apply Forall_forall. intros x Hx.
      apply in_firstn, in_map_iff in Hx. destruct Hx as [i [<- _]].
      discriminate.
Qed.

Lemma recommend_items_same_items_witness :
  recommend_items (mk_recommender (Some similarity_by_column)) (interactions [] []) 0 2 false
    = Ok [ItemOnly 3; ItemOnly 1] /\
  exists l', recommend_items (mk_recommender (Some similarity_by_column))
                             (interactions [] []) 0 2 true = Ok l' /\
             [ItemOnly 3; ItemOnly 1] = map (fun x => ItemOnly (rec_item x)) l' /\
             Forall (fun x => rec_score x <> None) l'.
Proof.
  split; [reflexivity|].
  apply (recommend_items_same_items (mk_recommender (Some similarity_by_column))
                                    (interactions [] []) 0 2).
  reflexivity.
Defined.

(** X5. With a similarity matrix held, [recommend_items] raises
    [IndexError] for a user beyond the rows of the dataset and
    [ValueError] when the dataset and the matrix differ in their number of
    columns; neither is turned into the "not fitted" error, which only an
    [AttributeError] of the product is.  In every other case it returns. *)
Theorem recommend_items_outcome (self : recommender) (sm dataset : csr_matrix)
        (u max_items : nat) (return_scores : bool) :
  similarity_matrix self = Some sm ->
  (fst (shape dataset) <= u ->
   recommend_items self dataset u max_items return_scores = Raise IndexError) /\
  (u < fst (shape dataset) -> snd (shape sm) <> snd (shape dataset) ->
   recommend_items self dataset u max_items return_scores = Raise ValueError) /\
  (u < fst (shape dataset) -> snd (shape sm) = snd (shape dataset) ->
   exists l, recommend_items self dataset u max_items return_scores = Ok l).
Proof.
  intros Hsm.
  unfold recommend_items, getattr_similarity_matrix, getrow, matmul.
  rewrite Hsm. cbn [bind].
  split; [|split].
  - intros Hu. apply Nat.ltb_ge in Hu. rewrite Hu. reflexivity.
  - intros Hu Hw. apply Nat.ltb_lt in Hu. apply Nat.eqb_neq in Hw.
    rewrite Hu. cbn [bind shape transpose fst snd]. rewrite Hw. reflexivity.
  - intros Hu Hw. apply Nat.ltb_lt in Hu.
    rewrite Hu. cbn [bind shape transpose fst snd]. rewrite Hw, Nat.eqb_refl.
    cbn [bind try_except_AttributeError]. eauto.
Qed.

Lemma recommend_items_outcome_witness :
  similarity_matrix (mk_recommender (Some similarity_by_row)) = Some similarity_by_row /\
  fst (shape one_user) <= 1 /\
  recommend_items (mk_recommender (Some similarity_by_row)) one_user 1 10 true
    = Raise IndexError /\
  0 < fst (shape one_user) /\ snd (shape similarity_by_row) <> snd (shape one_user) /\
  recommend_items (mk_recommender (Some similarity_by_row)) one_user 0 10 true
    = Raise ValueError /\
  snd (shape negative_similarity) = snd (shape one_user) /\
  exists l, recommend_items (mk_recommender (Some negative_similarity)) one_user 0 10 true
            = Ok l.
Proof.
  assert (H1 : fst (shape one_user) <= 1) by (simpl; lia).
  assert (H0 : 0 < fst (shape one_user)) by (simpl; lia).
  assert (Hne : snd (shape similarity_by_row) <> snd (shape one_user))
    by (simpl; lia).
  split; [reflexivity|]. split; [exact H1|]. split.
  - exact (proj1 (recommend_items_outcome (mk_recommender (Some similarity_by_row))
                    similarity_by_row one_user 1 10 true eq_refl) H1).
  - split; [exact H0|]. split; [exact Hne|]. split.
    + exact (proj1 (proj2 (recommend_items_outcome
                             (mk_recommender (Some similarity_by_row))
                             similarity_by_row one_user 0 10 true eq_refl)) H0 Hne).
    + split; [reflexivity|].
      exact (proj2 (proj2 (recommend_items_outcome
                             (mk_recommender (Some negative_similarity))
                             negative_similarity one_user 0 10 true eq_refl))
                   H0 eq_refl).
Defined.

(** ** [range_recommend_items] and [batch_recommend_items] *)

Lemma select_row_length (ru : csr_matrix) (max_items : nat) (return_scores : bool) :
  List.length (select_row ru max_items return_scores) <= max_items.
Proof.
  unfold select_row. destruct return_scores; apply firstn_le_length.
Qed.

Lemma get_recommendations_In (r dataset : csr_matrix) (a b max_items : nat)
      (return_scores : bool) (ls : list (list recommendation)) (l : list recommendation) :
  _get_recommendations_from_predictions r dataset a b max_items return_scores = Ok ls ->
  In l ls ->
  exists ru, l = select_row ru max_items return_scores.
Proof.
  intros H Hl. apply In_nth_error in Hl. destruct Hl as [n Hn].
  destruct (get_recommendations_nth _ _ _ _ _ _ _ _ _ H Hn) as [ru [_ ->]]. eauto.
Qed.

(** X6. Every list returned by [range_recommend_items] and by
    [batch_recommend_items] has at most [max_items] entries; with
    [max_items = 0] all of them are empty. *)
Theorem range_batch_at_most_max_items (self : recommender) (dataset : csr_matrix)
        (max_items : nat) (return_scores : bool) (ls : list (list recommendation)) :
  (batch_recommend_items self dataset max_items return_scores = Ok ls \/
   exists user_start user_end,
     range_recommend_items self dataset user_start user_end max_items return_scores
       = Ok ls) ->
  Forall (fun l => List.length l <= max_items) ls /\
  (max_items = 0 -> Forall (fun l => l = []) ls).
Proof.
  intros H.
  assert (Hsel : forall l, In l ls -> exists ru, l = select_row ru max_items return_scores).
  { intros l Hl. destruct H as [H|[a [b H]]];
      apply projection_Ok in H; destruct H as [sm [r [_ [_ [_ H]]]]];
      eapply get_recommendations_In; eassumption. }
  assert (Hlen : Forall (fun l => List.length l <= max_items) ls).
  { apply Forall_forall. intros l Hl.
    destruct (Hsel l Hl) as [ru ->]. apply select_row_length. }
  split; [exact Hlen|].
  intros ->. eapply Forall_impl; [|exact Hlen].
  intros [|x t]; simpl; [reflexivity|lia].
Qed.

Lemma range_batch_at_most_max_items_witness :
  (batch_recommend_items (mk_recommender (Some similarity_by_column))
                         (interactions [] []) 0 true = Ok [[]; []; []] \/
   exists user_start user_end,
     range_recommend_items (mk_recommender (Some similarity_by_column))
                           (interactions [] []) user_start user_end 0 true
       = Ok [[]; []; []]) /\
  Forall (fun l : list recommendation => List.length l <= 0) [[]; []; []] /\
  (0 = 0 -> Forall (fun l : list recommendation => l = []) [[]; []; []]).
Proof.
  assert (H : batch_recommend_items (mk_recommender (Some similarity_by_column))
                                    (interactions [] []) 0 true = Ok [[]; []; []] \/
              exists user_start user_end,
                range_recommend_items (mk_recommender (Some similarity_by_column))
                                      (interactions [] []) user_start user_end 0 true
                  = Ok [[]; []; []])
    by (left; reflexivity).
  split; [exact H|].
  exact (range_batch_at_most_max_items _ _ _ _ _ H).
Defined.

(** X7. Every score in a list returned by [range_recommend_items] or by
    [batch_recommend_items] is strictly positive. *)
Theorem range_batch_scores_positive (self : recommender) (dataset : csr_matrix)
        (max_items : nat) (return_scores : bool) (ls : list (list recommendation))
        (l : list recommendation) (i : nat) (v : Q) :
  (batch_recommend_items self dataset max_items return_scores = Ok ls \/
   exists user_start user_end,
     range_recommend_items self dataset user_start user_end max_items return_scores
       = Ok ls) ->
  In l ls -> In (WithScore i v) l -> (0 < v)%Q.
Proof.
  intros H Hl Hx.
  destruct H as [H|[a [b H]]];
    apply projection_Ok in H; destruct H as [sm [r [_ [_ [_ H]]]]];
    eapply selection_scores_positive; eassumption.
Qed.

Lemma range_batch_scores_positive_witness :
  (batch_recommend_items (mk_recommender (Some similarity_by_column))
                         (interactions [] []) 2 true
     = Ok [[WithScore 3 (9#10); WithScore 1 (8#10)]; []; []] \/
   exists user_start user_end,
     range_recommend_items (mk_recommender (Some similarity_by_column))
                           (interactions [] []) user_start user_end 2 true
       = Ok [[WithScore 3 (9#10); WithScore 1 (8#10)]; []; []]) /\
  (0 < 8#10)%Q.
Proof.
  assert (H : batch_recommend_items (mk_recommender (Some similarity_by_column))
                                    (interactions [] []) 2 true
                = Ok [[WithScore 3 (9#10); WithScore 1 (8#10)]; []; []] \/
              exists user_start user_end,
                range_recommend_items (mk_recommender (Some similarity_by_column))
                                      (interactions [] []) user_start user_end 2 true
                  = Ok [[WithScore 3 (9#10); WithScore 1 (8#10)]; []; []])
    by (left; reflexivity).
  split; [exact H|].
  apply (range_batch_scores_positive _ _ _ _ _
           [WithScore 3 (9#10); WithScore 1 (8#10)] 1 (8#10) H).
  - left. reflexivity.
  - right. left. reflexivity.
Defined.

(** X8. On a dataset that stores one row per user, the list for user [u]
    returned by [range_recommend_items] over a range containing [u] is the
    list for [u] returned by [batch_recommend_items], for the same
    [max_items] and [return_scores]. *)
Theorem range_agrees_with_batch (self : recommender) (dataset : csr_matrix)
        (user_start user_end max_items u : nat) (return_scores : bool)
        (range_recs batch_recs : list (list recommendation)) :
  List.length (rows dataset) = fst (shape dataset) ->
  range_recommend_items self dataset user_start user_end max_items return_scores
    = Ok range_recs ->
  batch_recommend_items self dataset max_items return_scores = Ok batch_recs ->
  user_start <= u -> u < user_end ->
  exists l, nth_error range_recs (u - user_start) = Some l /\
            nth_error batch_recs u = Some l.
Proof.
  intros Hwf Hrange Hbatch Ha Hb.
  pose proof (range_entry_is_batch_entry _ _ _ _ _ _ _ _ _ Hwf Hrange Hbatch Ha Hb) as E.
  apply projection_Ok in Hrange. destruct Hrange as [sm [r [_ [_ [_ Hrange]]]]].
  unfold _get_recommendations_from_predictions in Hrange.
  apply mapM_length in Hrange. rewrite length_seq in Hrange.
  destruct (nth_error range_recs (u - user_start)) as [l|] eqn:El.
  - exists l. split; [reflexivity|]. symmetry. exact E.
  - apply nth_error_None in El. lia.
Qed.

Lemma range_agrees_with_batch_witness :
  List.length (rows (interactions [] [])) = fst (shape (interactions [] [])) /\
  0 <= 0 /\ 0 < 2 /\
  exists l, nth_error [[WithScore 3 (9#10); WithScore 1 (8#10)]; []] (0 - 0) = Some l /\
            nth_error [[WithScore 3 (9#10); WithScore 1 (8#10)]; []; []] 0 = Some l.
Proof.
  assert (H0 : 0 <= 0) by apply le_n.
  assert (H2 : 0 < 2) by (apply Nat.lt_0_succ).
  split; [reflexivity|]. split; [exact H0|]. split; [exact H2|].
  exact (range_agrees_with_batch (mk_recommender (Some similarity_by_column))
                                 (interactions [] []) 0 2 2 0 true
                                 [[WithScore 3 (9#10); WithScore 1 (8#10)]; []]
                                 [[WithScore 3 (9#10); WithScore 1 (8#10)]; []; []]
                                 eq_refl eq_refl eq_refl H0 H2).
Defined.

Lemma mapM_raises {A B : Type} (f : A -> result B) (e : exn) (l : list A) :
  (forall x, In x l -> f x = Raise e \/ exists y, f x = Ok y) ->
  (exists x, In x l /\ f x = Raise e) ->
  mapM f l = Raise e.
Proof.
  induction l as [|a t IH]; intros Hall [x [Hx Hf]]; [destruct Hx|].
  simpl. destruct (Hall a (or_introl eq_refl)) as [Ha|[y Hy]].
  - rewrite Ha. reflexivity.
  - rewrite Hy. cbn [bind].
    rewrite IH; [reflexivity| |].
    + intros z Hz. apply Hall. now right.
    + destruct Hx as [->|Hx]; [congruence|eauto].
Qed.

(** X9. With a similarity matrix held, [batch_recommend_items] raises
    [ValueError] when the dataset and the matrix differ in their number of
    columns, and otherwise returns exactly one list per row of the
    dataset. *)
Theorem batch_recommend_items_outcome (self : recommender) (sm dataset : csr_matrix)
        (max_items : nat) (return_scores : bool) :
  similarity_matrix self = Some sm ->
  (snd (shape dataset) <> snd (shape sm) ->
   batch_recommend_items self dataset max_items return_scores = Raise ValueError) /\
  (snd (shape dataset) = snd (shape sm) ->
   exists ls, batch_recommend_items self dataset max_items return_scores = Ok ls /\
              List.length ls = fst (shape dataset)).
Proof.
  intros Hsm. split.
  - intros Hw. apply Nat.eqb_neq in Hw.
    unfold batch_recommend_items, getattr_similarity_matrix, matmul.
    rewrite Hsm. cbn [bind shape transpose fst snd]. rewrite Hw. reflexivity.
  - intros Hw. apply batch_recommend_items_returns with (sm := sm); auto.
Qed.

Lemma batch_recommend_items_outcome_witness :
  similarity_matrix (mk_recommender (Some similarity_by_row)) = Some similarity_by_row /\
  snd (shape one_user) <> snd (shape similarity_by_row) /\
  batch_recommend_items (mk_recommender (Some similarity_by_row)) one_user 10 true
    = Raise ValueError /\
  snd (shape (interactions [] [])) = snd (shape similarity_by_row) /\
  exists ls, batch_recommend_items (mk_recommender (Some similarity_by_row))
                                   (interactions [] []) 10 true = Ok ls /\
             List.length ls = fst (shape (interactions [] [])).
Proof.
  assert (Hne : snd (shape one_user) <> snd (shape similarity_by_row)) by (simpl; lia).
  split; [reflexivity|]. split; [exact Hne|]. split.
  - exact (proj1 (batch_recommend_items_outcome (mk_recommender (Some similarity_by_row))
                    similarity_by_row one_user 10 true eq_refl) Hne).
  - split; [reflexivity|].
    exact (proj2 (batch_recommend_items_outcome (mk_recommender (Some similarity_by_row))
                    similarity_by_row (interactions [] []) 10 true eq_refl) eq_refl).
Defined.

(** X10. With a similarity matrix of matching width held, a non-empty
    range that lies within the users gives [user_end - user_start] lists,
    and a non-empty range that ends beyond the last user raises
    [IndexError]: the slice of the dataset is cut at the last row, and the
    loop then asks for a row of scores that does not exist. *)
Theorem range_recommend_items_outcome (self : recommender) (sm dataset : csr_matrix)
        (user_start user_end max_items : nat) (return_scores : bool) :
  similarity_matrix self = Some sm ->
  snd (shape dataset) = snd (shape sm) ->
  user_start < user_end ->
  (user_end <= fst (shape dataset) ->
   exists ls,
     range_recommend_items self dataset user_start user_end max_items return_scores = Ok ls /\
     List.length ls = user_end - user_start) /\
  (fst (shape dataset) < user_end ->
   range_recommend_items self dataset user_start user_end max_items return_scores
     = Raise IndexError).
Proof.
  intros Hsm Hw Hlt. split.
  - intros Hend. apply range_recommend_items_returns with (sm := sm); auto.
  - intros Hend.
    unfold range_recommend_items, getattr_similarity_matrix, matmul.
    rewrite Hsm. cbn [bind shape transpose slice_rows fst snd].
    rewrite Hw, Nat.eqb_refl. cbn [bind try_except_AttributeError].
    unfold _get_recommendations_from_predictions.
    apply mapM_raises.
    + intros x _. unfold getrow.
      destruct (_ <? _); cbn [bind]; eauto.
    + exists (user_end - 1). split; [apply in_seq; lia|].
      unfold getrow. cbn [shape _zero_known_item_scores fst].
      replace (user_end - 1 - user_start
               <? Nat.min user_end (fst (shape dataset))
                  - Nat.min user_start (fst (shape dataset)))
        with false by (symmetry; apply Nat.ltb_ge; lia).
      reflexivity.
Qed.

Lemma range_recommend_items_outcome_witness :
  similarity_matrix (mk_recommender (Some similarity_by_column))
    = Some similarity_by_column /\
  snd (shape (interactions [] [])) = snd (shape similarity_by_column) /\
  1 < 3 /\ 3 <= fst (shape (interactions [] [])) /\
  (exists ls, range_recommend_items (mk_recommender (Some similarity_by_column))
                                    (interactions [] []) 1 3 2 true = Ok ls /\
              List.length ls = 3 - 1) /\
  1 < 4 /\ fst (shape (interactions [] [])) < 4 /\
  range_recommend_items (mk_recommender (Some similarity_by_column))
                        (interactions [] []) 1 4 2 true = Raise IndexError.
Proof.
  assert (H13 : 1 < 3) by lia.
  assert (H14 : 1 < 4) by lia.
  assert (H3 : 3 <= fst (shape (interactions [] []))) by (simpl; lia).
  assert (H4 : fst (shape (interactions [] [])) < 4) by (simpl; lia).
  split; [reflexivity|]. split; [reflexivity|].
  split; [exact H13|]. split; [exact H3|]. split.
  - exact (proj1 (range_recommend_items_outcome
                    (mk_recommender (Some similarity_by_column)) similarity_by_column
                    (interactions [] []) 1 3 2 true eq_refl eq_refl H13) H3).
  - split; [exact H14|]. split; [exact H4|].
    exact (proj2 (range_recommend_items_outcome
                    (mk_recommender (Some similarity_by_column)) similarity_by_column
                    (interactions [] []) 1 4 2 true eq_refl eq_refl H14) H4).
Defined.

Lemma StronglySorted_app_cross {A : Type} (R : A -> A -> Prop) (l1 l2 : list A) :
  StronglySorted R (l1 ++ l2) ->
  forall a b, In a l1 -> In b l2 -> R a b.
Proof.
  induction l1 as [|x t IH]; simpl; intros H a b Ha Hb; [destruct Ha|].
  inversion H as [|y l Hs Hall]; subst.
  destruct Ha as [->|Ha].
  - rewrite Forall_forall in Hall. apply Hall, in_or_app. now right.
  - now apply IH.
Qed.

Lemma select_row_unbounded (ru : csr_matrix) (max_items : nat) :
  select_row ru max_items true
  = firstn max_items
           (select_row ru (List.length (combine (data ru) (indices ru))) true).
Proof.
  unfold select_row.
  rewrite (firstn_all2 (n := List.length (combine (data ru) (indices ru)))); [reflexivity|].
  rewrite length_map.
  etransitivity; [apply filter_length_le|].
  rewrite (Permutation_length (sorted_reverse_perm tuple_le _)). apply le_n.
Qed.

(** X11. The selection of one user keeps the best candidates: a stored
    entry of the score row with a strictly positive score is either in the
    selected list, or the list is full ([max_items] entries) and every
    selected entry ranks before it, by higher score or, at equal score, by
    higher item index. *)
Theorem select_row_keeps_the_best (ru : csr_matrix) (max_items i : nat) (v : Q) :
  NoDup (indices ru) ->
  In (i, v) (concat (rows ru)) ->
  (0 < v)%Q ->
  In (WithScore i v) (select_row ru max_items true) \/
  (List.length (select_row ru max_items true) = max_items /\
   Forall (fun x => ranked_before x (WithScore i v)) (select_row ru max_items true)).
Proof.
  intros Hnd Hin Hpos.
  pose proof (select_row_ranked ru (List.length (combine (data ru) (indices ru))) Hnd)
    as Hsorted.
  rewrite (select_row_unbounded ru max_items).
  set (full := select_row ru (List.length (combine (data ru) (indices ru))) true) in *.
  assert (Hfull : In (WithScore i v) full).
  { unfold full, select_row.
    rewrite firstn_all2.
    - apply in_map_iff. exists (v, i). split; [reflexivity|].
      apply filter_In. split; [|apply positive_iff; exact Hpos].
      apply in_sorted_reverse.
      unfold data, indices. rewrite combine_snd_fst.
      apply in_map_iff. exists (i, v). split; [reflexivity|exact Hin].
    - rewrite length_map.
      etransitivity; [apply filter_length_le|].
      rewrite (Permutation_length (sorted_reverse_perm tuple_le _)). apply le_n. }
  rewrite <- (firstn_skipn max_items full) in Hfull, Hsorted.
  apply in_app_or in Hfull. destruct Hfull as [Hfirst|Hrest]; [left; exact Hfirst|].
  right. split.
  - rewrite length_firstn. apply Nat.min_l.
    destruct (Nat.le_gt_cases max_items (List.length full)) as [L|L]; [exact L|].
    rewrite skipn_all2 in Hrest by lia. destruct Hrest.
  - apply Forall_forall. intros x Hx.
    eapply StronglySorted_app_cross; eassumption.
Qed.

Lemma select_row_keeps_the_best_witness :
  NoDup (indices (mk_csr (1, 4) [[(0, 3#10); (1, 8#10); (3, 9#10)]])) /\
  In (0, 3#10) (concat (rows (mk_csr (1, 4) [[(0, 3#10); (1, 8#10); (3, 9#10)]]))) /\
  (0 < 3#10)%Q /\
  (In (WithScore 0 (3#10))
      (select_row (mk_csr (1, 4) [[(0, 3#10); (1, 8#10); (3, 9#10)]]) 2 true) \/
   (List.length (select_row (mk_csr (1, 4) [[(0, 3#10); (1, 8#10); (3, 9#10)]]) 2 true) = 2 /\
    Forall (fun x => ranked_before x (WithScore 0 (3#10)))
           (select_row (mk_csr (1, 4) [[(0, 3#10); (1, 8#10); (3, 9#10)]]) 2 true))).
Proof.
  assert (Hnd : NoDup (indices (mk_csr (1, 4) [[(0, 3#10); (1, 8#10); (3, 9#10)]]))).
  { repeat constructor; simpl; intuition discriminate. }
  assert (Hin : In (0, 3#10)
                   (concat (rows (mk_csr (1, 4) [[(0, 3#10); (1, 8#10); (3, 9#10)]]))))
    by (left; reflexivity).
  assert (Hpos : (0 < 3#10)%Q) by reflexivity.
  split; [exact Hnd|]. split; [exact Hin|]. split; [exact Hpos|].
  exact (select_row_keeps_the_best _ 2 0 (3#10) Hnd Hin Hpos).
Defined.

(** ** [get_similar_items] *)

Lemma best_prefix {A : Type} (R : A -> A -> Prop) (P : list A) (k : nat) (x : A) :
  StronglySorted R P -> In x P ->
  In x (firstn k P) \/
  (List.length (firstn k P) = k /\ Forall (fun q => R q x) (firstn k P)).
Proof.
  intros Hs Hx.
  rewrite <- (firstn_skipn k P) in Hx, Hs.
  apply in_app_or in Hx. destruct Hx as [Hx|Hx]; [left; exact Hx|].
  right. split.
  - rewrite length_firstn. apply Nat.min_l.
    destruct (Nat.le_gt_cases k (List.length P)) as [L|L]; [exact L|].
    rewrite skipn_all2 in Hx by lia. destruct Hx.
  - apply Forall_forall. intros q Hq.
    eapply StronglySorted_app_cross; eassumption.
Qed.

(** In a list in descending order of score the positive entries come
    first, so cutting the list and dropping the others commute. *)
Lemma filter_firstn_descending {A : Type} (key : A -> Q) (k : nat) (L : list A) :
  StronglySorted (fun a b => (key b <= key a)%Q) L ->
  filter (fun a => positive (key a)) (firstn k L)
  = firstn k (filter (fun a => positive (key a)) L).
Proof.
  intros Hs. revert k.
  induction Hs as [|a t Hs IH Hall]; intros k.
  - rewrite !firstn_nil. reflexivity.
  - destruct k as [|k]; [reflexivity|].
    cbn [firstn filter].
    destruct (positive (key a)) eqn:Ea.
    + cbn [firstn]. f_equal. apply IH.
    + assert (Hnone : forall l, incl l t -> filter (fun b => positive (key b)) l = []).
      { induction l as [|b l IHl]; intros Hincl; [reflexivity|].
        cbn [filter].
        assert (Hb : (key b <= key a)%Q).
        { rewrite Forall_forall in Hall. apply Hall, Hincl. now left. }
        destruct (positive (key b)) eqn:Eb.
        - exfalso. apply positive_iff in Eb.
          assert (Ha : positive (key a) = true)
            by (apply positive_iff; eapply Qlt_le_trans; eassumption).
          congruence.
        - apply IHl. intros z Hz. apply Hincl. now right. }
      rewrite (Hnone t (incl_refl t)).
      apply Hnone.
      intros z Hz. eapply in_firstn. exact Hz.
Qed.

Lemma combine_fst_snd {A B : Type} (l : list (A * B)) :
  combine (map fst l) (map snd l) = l.
Proof.
  induction l as [|[a b] t IH]; simpl; [reflexivity|now rewrite IH].
Qed.

Lemma map_item_seq (w : ndarray) : map (item w) (seq 0 (List.length w)) = w.
Proof.
  assert (H : forall s, map (fun i => nth (i - s) w 0%Q) (seq s (List.length w)) = w).
  { induction w as [|x t IH]; intros s; simpl; [reflexivity|].
    rewrite Nat.sub_diag. f_equal.
    transitivity (map (fun i => nth (i - S s) t 0%Q) (seq (S s) (List.length t)));
      [|apply IH].
    apply map_ext_in.
    intros i Hi. apply in_seq in Hi.
    replace (i - s) with (S (i - S s)) by lia. reflexivity. }
  transitivity (map (fun i => nth (i - 0) w 0%Q) (seq 0 (List.length w))); [|apply H].
  apply map_ext. intros i. rewrite Nat.sub_0_r. reflexivity.
Qed.

Lemma filter_map_length {A B : Type} (f : B -> bool) (g : A -> B) (l : list A) :
  List.length (filter (fun a => f (g a)) l) = List.length (filter f (map g l)).
Proof.
  induction l as [|a t IH]; simpl; [reflexivity|].
  destruct (f (g a)); simpl; now rewrite IH.
Qed.

Section GetSimilarItemsMore.
Context {strategy : ItemSimilarity}.

Lemma held_matrix_result (self : recommender) (sm : csr_matrix) (j k : nat)
      (dataset : option csr_matrix) (l : list (nat * Q)) :
  similarity_matrix self = Some sm ->
  get_similar_items self j k dataset = Ok l ->
  l = firstn k (filter (fun p => positive (snd p))
                       (sorted_by_key_reverse snd (row_of sm j))).
Proof.
  intros Hsm H. unfold get_similar_items in H. rewrite Hsm in H.
  apply bind_Ok in H. destruct H as [sj [Hsj H]]. inversion H; subst l.
  destruct (indices_getrow _ _ _ Hsj) as [-> ->].
  rewrite combine_fst_snd.
  apply (filter_firstn_descending snd).
  eapply StronglySorted_impl;
    [|apply (sorted_reverse_sorted (fun a b : nat * Q => Qle_bool (snd a) (snd b))
                                   (fun a b => Qle_bool_total _ _)
                                   (fun a b c => Qle_bool_trans _ _ _))].
  intros a b. apply Qle_bool_iff.
Qed.

Lemma fallback_result (self : recommender) (w : ndarray) (j k : nat)
      (dataset : option csr_matrix) (l : list (nat * Q)) :
  similarity_matrix self = None ->
  compute_similarities dataset j = Ok w ->
  get_similar_items self j k dataset = Ok l ->
  l = map (fun i => (i, item w i))
          (firstn k (filter (fun i => positive (item w i)) (rev (argsort w)))).
Proof.
  intros Hnone Hw H. unfold get_similar_items in H. rewrite Hnone, Hw in H.
  cbn [bind] in H. inversion H; subst l. f_equal.
  apply (filter_firstn_descending (item w)).
  apply (StronglySorted_rev _ _ (argsort_ascending w)).
Qed.

(** X12. [get_similar_items(j, k)] returns exactly [min k p] pairs, where
    [p] is the number of strictly positive entries stored in row [j] of
    the held matrix or, in the fallback, in the vector that
    [compute_similarities] returns: cutting to [k] before dropping the
    non-positive entries loses nothing. *)
Theorem get_similar_items_count (self : recommender) (j k : nat)
        (dataset : option csr_matrix) (l : list (nat * Q)) :
  get_similar_items self j k dataset = Ok l ->
  (forall sm, similarity_matrix self = Some sm ->
              List.length l
              = Nat.min k (List.length (filter (fun p => positive (snd p)) (row_of sm j)))) /\
  (forall w, similarity_matrix self = None -> compute_similarities dataset j = Ok w ->
             List.length l = Nat.min k (List.length (filter positive w))).
Proof.
  intros H. split.
  - intros sm Hsm. rewrite (held_matrix_result _ _ _ _ _ _ Hsm H).
    rewrite length_firstn. f_equal.
    apply Permutation_filter_length, sorted_reverse_perm.
  - intros w Hnone Hw. rewrite (fallback_result _ _ _ _ _ _ Hnone Hw H).
    rewrite length_map, length_firstn. f_equal.
    rewrite (Permutation_filter_length _ _ (seq 0 (List.length w))).
    + rewrite (filter_map_length positive (item w)), map_item_seq. reflexivity.
    + rewrite <- Permutation_rev. apply argsort_perm.
Qed.

(** X13. Every pair returned by [get_similar_items] is a stored entry of
    row [j] of the held matrix; in the fallback it is an index of the
    similarity vector together with the value at that index, and no index
    is returned twice. *)
Theorem get_similar_items_sound (self : recommender) (j k : nat)
        (dataset : option csr_matrix) (l : list (nat * Q)) :
  get_similar_items self j k dataset = Ok l ->
  (forall sm, similarity_matrix self = Some sm ->
              Forall (fun p => In p (row_of sm j)) l) /\
  (forall w, similarity_matrix self = None -> compute_similarities dataset j = Ok w ->
             Forall (fun p => fst p < List.length w /\ snd p = item w (fst p)) l /\
             NoDup (map fst l)).
Proof.
  intros H. split.
  - intros sm Hsm. rewrite (held_matrix_result _ _ _ _ _ _ Hsm H).
    apply Forall_forall. intros p Hp.
    apply in_firstn, filter_In in Hp. destruct Hp as [Hp _].
    apply in_sorted_reverse in Hp. exact Hp.
  - intros w Hnone Hw. rewrite (fallback_result _ _ _ _ _ _ Hnone Hw H). split.
    + apply Forall_forall. intros p Hp.
      apply in_map_iff in Hp. destruct Hp as [i [<- Hi]].
      apply in_firstn, filter_In in Hi. destruct Hi as [Hi _].
      apply in_rev in Hi.
      apply (Permutation_in _ (argsort_perm w)), in_seq in Hi.
      split; [simpl; lia|reflexivity].
    + rewrite map_map. cbn [fst]. rewrite map_id.
      assert (Hnd : NoDup (filter (fun i => positive (item w i)) (rev (argsort w)))).
      { apply NoDup_filter, NoDup_rev.
        eapply Permutation_NoDup; [symmetry; apply argsort_perm|apply seq_NoDup]. }
      rewrite <- (firstn_skipn k) in Hnd.
      eapply NoDup_app_remove_r. exact Hnd.
Qed.

(** X14. [get_similar_items] keeps the best: a strictly positive entry of
    row [j] of the held matrix (of the similarity vector, in the fallback)
    is either returned, or [k] pairs are returned and each of them has a
    score at least as high. *)
Theorem get_similar_items_keeps_the_best (self : recommender) (j k : nat)
        (dataset : option csr_matrix) (l : list (nat * Q)) :
  get_similar_items self j k dataset = Ok l ->
  (forall sm p, similarity_matrix self = Some sm ->
                In p (row_of sm j) -> (0 < snd p)%Q ->
                In p l \/
                (List.length l = k /\ Forall (fun q => (snd p <= snd q)%Q) l)) /\
  (forall w i, similarity_matrix self = None -> compute_similarities dataset j = Ok w ->
               i < List.length w -> (0 < item w i)%Q ->
               In (i, item w i) l \/
               (List.length l = k /\ Forall (fun q => (item w i <= snd q)%Q) l)).
Proof.
  intros H. split.
  - intros sm p Hsm Hp Hpos. rewrite (held_matrix_result _ _ _ _ _ _ Hsm H).
    apply (best_prefix (fun a b : nat * Q => (snd b <= snd a)%Q)).
    + apply StronglySorted_filter.
      eapply StronglySorted_impl;
        [|apply (sorted_reverse_sorted (fun a b : nat * Q => Qle_bool (snd a) (snd b))
                                       (fun a b => Qle_bool_total _ _)
                                       (fun a b c => Qle_bool_trans _ _ _))].
      intros a b. apply Qle_bool_iff.
    + apply filter_In. split; [|apply positive_iff; exact Hpos].
      apply in_sorted_reverse. exact Hp.
  - intros w i Hnone Hw Hi Hpos. rewrite (fallback_result _ _ _ _ _ _ Hnone Hw H).
    destruct (best_prefix (fun a b => (item w b <= item w a)%Q)
                          (filter (fun i => positive (item w i)) (rev (argsort w))) k i)
      as [Hin|[Hlen Hall]].
    + apply StronglySorted_filter, (StronglySorted_rev _ _ (argsort_ascending w)).
    + apply filter_In. split; [|apply positive_iff; exact Hpos].
      apply in_rev. rewrite rev_involutive.
      apply (Permutation_in _ (Permutation_sym (argsort_perm w))), in_seq. lia.
    + left. apply in_map_iff. exists i. split; [reflexivity|exact Hin].
    + right. split; [rewrite length_map; exact Hlen|].
      apply Forall_map. exact Hall.
Qed.

End GetSimilarItemsMore.

Lemma get_similar_items_count_witness :
  get_similar_items (strategy := constant_strategy [])
                    (mk_recommender (Some tied_similarity)) 0 1 None = Ok [(1, 1#2)] /\
  List.length [(1, 1#2)]
  = Nat.min 1 (List.length (filter (fun p : nat * Q => positive (snd p))
                                   (row_of tied_similarity 0))) /\
  get_similar_items (strategy := constant_strategy [1#3; 0; 1#2]%Q)
                    (mk_recommender None) 0 2 None = Ok [(2, 1#2); (0, 1#3)] /\
  List.length [(2, 1#2); (0, 1#3)]
  = Nat.min 2 (List.length (filter positive [1#3; 0; 1#2]%Q)).
Proof.
  split; [reflexivity|]. split.
  - exact (proj1 (get_similar_items_count (strategy := constant_strategy [])
                    (mk_recommender (Some tied_similarity)) 0 1 None [(1, 1#2)] eq_refl)
                 tied_similarity eq_refl).
  - split; [reflexivity|].
    exact (proj2 (get_similar_items_count (strategy := constant_strategy [1#3; 0; 1#2]%Q)
                    (mk_recommender None) 0 2 None [(2, 1#2); (0, 1#3)] eq_refl)
                 [1#3; 0; 1#2]%Q eq_refl eq_refl).
Defined.

Lemma get_similar_items_sound_witness :
  get_similar_items (strategy := constant_strategy [])
                    (mk_recommender (Some tied_similarity)) 0 1 None = Ok [(1, 1#2)] /\
  Forall (fun p => In p (row_of tied_similarity 0)) [(1, 1#2)] /\
  get_similar_items (strategy := constant_strategy [1#3; 0; 1#2]%Q)
                    (mk_recommender None) 0 2 None = Ok [(2, 1#2); (0, 1#3)] /\
  Forall (fun p : nat * Q => fst p < List.length [1#3; 0; 1#2]%Q /\
                             snd p = item [1#3; 0; 1#2]%Q (fst p))
         [(2, 1#2); (0, 1#3)] /\
  NoDup (map fst [(2, 1#2); (0, 1#3)]).
Proof.
  split; [reflexivity|]. split.
  - exact (proj1 (get_similar_items_sound (strategy := constant_strategy [])
                    (mk_recommender (Some tied_similarity)) 0 1 None [(1, 1#2)] eq_refl)
                 tied_similarity eq_refl).
  - split; [reflexivity|].
    exact (proj2 (get_similar_items_sound (strategy := constant_strategy [1#3; 0; 1#2]%Q)
                    (mk_recommender None) 0 2 None [(2, 1#2); (0, 1#3)] eq_refl)
                 [1#3; 0; 1#2]%Q eq_refl eq_refl).
Defined.

Lemma get_similar_items_keeps_the_best_witness :
  get_similar_items (strategy := constant_strategy [])
                    (mk_recommender (Some tied_similarity)) 0 1 None = Ok [(1, 1#2)] /\
  In (2, 1#2) (row_of tied_similarity 0) /\ (0 < snd (2, 1#2))%Q /\
  (In (2, 1#2) [(1, 1#2)] \/
   (List.length [(1, 1#2)] = 1 /\
    Forall (fun q : nat * Q => (snd (2, 1#2) <= snd q)%Q) [(1, 1#2)])) /\
  get_similar_items (strategy := constant_strategy [1#3; 0; 1#2]%Q)
                    (mk_recommender None) 0 1 None = Ok [(2, 1#2)] /\
  0 < List.length [1#3; 0; 1#2]%Q /\ (0 < item [1#3; 0; 1#2]%Q 0)%Q /\
  (In (0, item [1#3; 0; 1#2]%Q 0) [(2, 1#2)] \/
   (List.length [(2, 1#2)] = 1 /\
    Forall (fun q : nat * Q => (item [1#3; 0; 1#2]%Q 0 <= snd q)%Q) [(2, 1#2)])).
Proof.
  assert (Hin : In (2, 1#2) (row_of tied_similarity 0)) by (right; left; reflexivity).
  assert (Hpos : (0 < snd (2, 1#2))%Q) by reflexivity.
  assert (Hi : 0 < List.length [1#3; 0; 1#2]%Q) by (simpl; lia).
  assert (Hpos' : (0 < item [1#3; 0; 1#2]%Q 0)%Q) by reflexivity.
  split; [reflexivity|]. split; [exact Hin|]. split; [exact Hpos|]. split.
  - exact (proj1 (get_similar_items_keeps_the_best (strategy := constant_strategy [])
                    (mk_recommender (Some tied_similarity)) 0 1 None [(1, 1#2)] eq_refl)
                 tied_similarity (2, 1#2) eq_refl Hin Hpos).
  - split; [reflexivity|]. split; [exact Hi|]. split; [exact Hpos'|].
    exact (proj2 (get_similar_items_keeps_the_best
                    (strategy := constant_strategy [1#3; 0; 1#2]%Q)
                    (mk_recommender None) 0 1 None [(2, 1#2)] eq_refl)
                 [1#3; 0; 1#2]%Q 0 eq_refl eq_refl Hi Hpos').
Defined.

(** ** The matrix built from coordinate triplets *)

Lemma row_get_app (l1 l2 : sparse_row) (k : nat) :
  (row_get (l1 ++ l2) k == row_get l1 k + row_get l2 k)%Q.
Proof.
  induction l1 as [|p t IH]; simpl.
  - rewrite Qplus_0_l. reflexivity.
  - destruct (fst p =? k); [|exact IH].
    rewrite IH. apply Qplus_assoc.
Qed.

Lemma coo_sum_app (t1 t2 : list ((Z * Z) * Q)) (i k : nat) :
  (coo_sum (t1 ++ t2) i k == coo_sum t1 i k + coo_sum t2 i k)%Q.
Proof.
  unfold coo_sum, coo_values. rewrite filter_app, map_app.
  induction (map snd (filter _ t1)) as [|v vs IH]; simpl.
  - rewrite Qplus_0_l. reflexivity.
  - rewrite IH. apply Qplus_assoc.
Qed.

Lemma row_get_coo_row (trip : list ((Z * Z) * Q)) (i k s n : nat) :
  (row_get (flat_map (fun k' => match coo_values trip i k' with
                                | [] => []
                                | vs => [(k', fold_right Qplus 0%Q vs)]
                                end) (seq s n)) k
   == if (s <=? k) && (k <? s + n) then coo_sum trip i k else 0)%Q.
Proof.
  revert s. induction n as [|n IH]; intros s; simpl.
  - replace ((s <=? k) && (k <? s + 0)) with false; [reflexivity|].
    symmetry. apply andb_false_iff.
    destruct (Nat.leb_spec s k); [right; apply Nat.ltb_ge; lia|left; reflexivity].
  - rewrite row_get_app, IH.
    destruct (Nat.eq_dec s k) as [->|Hne].
    + replace ((k <=? k) && (k <? k + S n)) with true
        by (symmetry; apply andb_true_iff; split;
            [apply Nat.leb_le|apply Nat.ltb_lt]; lia).
      replace ((S k <=? k) && (k <? S k + n)) with false
        by (symmetry; apply andb_false_iff; left; apply Nat.leb_gt; lia).
      rewrite Qplus_0_r. unfold coo_sum.
      destruct (coo_values trip i k) as [|v vs]; simpl.
      * reflexivity.
      * rewrite Nat.eqb_refl. apply Qplus_0_r.
    + assert (E : (row_get match coo_values trip i s with
                           | [] => []
                           | vs => [(s, fold_right Qplus 0%Q vs)]
                           end k == 0)%Q).
      { destruct (coo_values trip i s); simpl; [reflexivity|].
        apply Nat.eqb_neq in Hne. rewrite Hne. reflexivity. }
      rewrite E, Qplus_0_l.
      replace ((s <=? k) && (k <? s + S n)) with ((S s <=? k) && (k <? S s + n));
        [reflexivity|].
      destruct (Nat.leb_spec (S s) k), (Nat.leb_spec s k),
               (Nat.ltb_spec k (S s + n)), (Nat.ltb_spec k (s + S n));
        try reflexivity; lia.
Qed.

Lemma filter_none {A : Type} (f : A -> bool) (l : list A) :
  (forall x, In x l -> f x = false) -> filter f l = [].
Proof.
  induction l as [|x t IH]; intros H; simpl; [reflexivity|].
  rewrite (H x (or_introl eq_refl)). apply IH.
  intros y Hy. apply H. now right.
Qed.

(** Triplets that passed the bounds check say nothing about a cell outside
    the shape. *)
Lemma coo_values_out_of_bounds (dat : list Q) (row col : list Z) (shp : nat * nat)
      (i k : nat) :
  forallb (coo_in_bounds shp) (combine row col) = true ->
  fst shp <= i \/ snd shp <= k ->
  coo_values (combine (combine row col) dat) i k = [].
Proof.
  intros Hb Hout. unfold coo_values.
  rewrite filter_none; [reflexivity|].
  intros [[r c] v] Hin. apply in_combine_l in Hin.
  rewrite forallb_forall in Hb. specialize (Hb _ Hin).
  unfold coo_in_bounds in Hb. cbn [fst snd] in *.
  apply andb_true_iff in Hb. destruct Hb as [Hb Hc2].
  apply andb_true_iff in Hb. destruct Hb as [Hb Hc1].
  apply andb_true_iff in Hb. destruct Hb as [Hr1 Hr2].
  apply Z.ltb_lt in Hc2, Hr2.
  apply andb_false_iff.
  destruct Hout as [Hi|Hk]; [left|right]; apply Z.eqb_neq; lia.
Qed.

(** The entry [(i, k)] of the matrix built from triplets is the sum of the
    values given for that cell. *)
Lemma csr_from_coo_entry (dat : list Q) (row col : list Z) (shp : nat * nat)
      (m : csr_matrix) (i k : nat) :
  csr_from_coo dat row col shp = Ok m ->
  (entry m i k == coo_sum (combine (combine row col) dat) i k)%Q.
Proof.
  unfold csr_from_coo.
  destruct (forallb (coo_in_bounds shp) (combine row col)) eqn:Hb; [|discriminate].
  intros H. inversion H; subst m. clear H.
  unfold entry, row_of. cbn [rows].
  destruct (Nat.lt_ge_cases i (fst shp)) as [Hi|Hi].
  - erewrite nth_error_nth
      by (rewrite nth_error_map, nth_error_seq;
          apply Nat.ltb_lt in Hi; rewrite Hi; reflexivity).
    cbn [Nat.add]. unfold coo_row. rewrite row_get_coo_row.
    cbn [Nat.leb Nat.add andb].
    destruct (Nat.ltb_spec k (snd shp)) as [Hk|Hk]; [reflexivity|].
    unfold coo_sum. rewrite (coo_values_out_of_bounds _ _ _ shp) by auto.
    reflexivity.
  - rewrite nth_overflow by (rewrite length_map, length_seq; exact Hi).
    unfold coo_sum. rewrite (coo_values_out_of_bounds _ _ _ shp) by auto.
    reflexivity.
Qed.

(** ** What [fit] stores *)

Lemma combine_app_aligned {A B : Type} (l1 l2 : list A) (l1' l2' : list B) :
  List.length l1 = List.length l1' ->
  combine (l1 ++ l2) (l1' ++ l2') = combine l1 l1' ++ combine l2 l2'.
Proof.
  revert l1'. induction l1 as [|a t IH]; intros [|b t'] H; simpl in *;
    try discriminate; [reflexivity|].
  f_equal. apply IH. lia.
Qed.

Lemma append_nonzero_triplets (j : nat) (w : ndarray) (acc : list Q * list Z * list Z) :
  aligned acc ->
  aligned (append_nonzero j w acc) /\
  triplets_of (append_nonzero j w acc) = triplets_of acc ++ new_triplets j w.
Proof.
  unfold append_nonzero, new_triplets, sparsify.
  generalize (enumerate w) as kvs. intros kvs. revert acc.
  induction kvs as [|kv kvs IH]; intros acc Hal; simpl.
  - rewrite app_nil_r. auto.
  - destruct acc as [[dat row] col].
    destruct (Qneqb (snd kv) 0) eqn:E.
    + destruct (IH (dat ++ [snd kv], row ++ [Z.of_nat j], col ++ [Z.of_nat (fst kv)]))
        as [Hal' Ht].
      { destruct Hal as [H1 H2]. unfold aligned in *. cbn [fst snd] in *.
        rewrite !length_app. simpl. lia. }
      split; [exact Hal'|]. rewrite Ht.
      destruct Hal as [H1 H2]. unfold triplets_of. cbn [fst snd] in *.
      rewrite !combine_app_aligned by (rewrite ?length_combine; lia).
      simpl. rewrite <- app_assoc. reflexivity.
    + apply IH. exact Hal.
Qed.

Lemma row_get_enumerate (w : ndarray) (k : nat) : (row_get (enumerate w) k == item w k)%Q.
Proof.
  rewrite enumerate_items. unfold item.
  assert (H : forall s n, (row_get (map (fun i => (i, nth i w 0%Q)) (seq s n)) k
                           == if (s <=? k) && (k <? s + n) then nth k w 0%Q else 0)%Q).
  { intros s n. revert s. induction n as [|n IH]; intros s; simpl.
    - replace ((s <=? k) && (k <? s + 0)) with false; [reflexivity|].
      symmetry. apply andb_false_iff.
      destruct (Nat.leb_spec s k); [right; apply Nat.ltb_ge; lia|left; reflexivity].
    - destruct (Nat.eqb_spec s k) as [->|Hne]; rewrite IH.
      + replace ((k <=? k) && (k <? k + S n)) with true
          by (symmetry; apply andb_true_iff; split;
              [apply Nat.leb_le|apply Nat.ltb_lt]; lia).
        replace ((S k <=? k) && (k <? S k + n)) with false
          by (symmetry; apply andb_false_iff; left; apply Nat.leb_gt; lia).
        apply Qplus_0_r.
      + replace ((s <=? k) && (k <? s + S n)) with ((S s <=? k) && (k <? S s + n));
          [reflexivity|].
        destruct (Nat.leb_spec (S s) k), (Nat.leb_spec s k),
                 (Nat.ltb_spec k (S s + n)), (Nat.ltb_spec k (s + S n));
          try reflexivity; lia. }
  rewrite H. cbn [Nat.leb Nat.add andb].
  destruct (Nat.ltb_spec k (List.length w)) as [Hk|Hk]; [reflexivity|].
  rewrite nth_overflow by exact Hk. reflexivity.
Qed.

Lemma row_get_sparsify (w : ndarray) (k : nat) : (row_get (sparsify w) k == item w k)%Q.
Proof.
  rewrite <- row_get_enumerate. unfold sparsify.
  induction (enumerate w) as [|p t IH]; simpl; [reflexivity|].
  destruct (Qneqb (snd p) 0) eqn:E; simpl.
  - destruct (fst p =? k); [rewrite IH; reflexivity|exact IH].
  - destruct (fst p =? k); [|exact IH].
    assert (Hz : (snd p == 0)%Q).
    { destruct (Qeq_dec (snd p) 0) as [Hz|Hz]; [exact Hz|].
      apply Qneqb_true in Hz. congruence. }
    rewrite IH, Hz, Qplus_0_l. reflexivity.
Qed.

Lemma coo_sum_new_triplets (j' : nat) (w : ndarray) (j k : nat) :
  (coo_sum (new_triplets j' w) j k == if j' =? j then item w k else 0)%Q.
Proof.
  unfold new_triplets.
  transitivity (if j' =? j then row_get (sparsify w) k else 0%Q);
    [|destruct (j' =? j); [apply row_get_sparsify|reflexivity]].
  unfold coo_sum, coo_values.
  induction (sparsify w) as [|p t IH]; simpl.
  - destruct (j' =? j); reflexivity.
  - destruct (Nat.eqb_spec j' j) as [->|Hne].
    + rewrite Z.eqb_refl. cbn [andb].
      destruct (Nat.eqb_spec (fst p) k) as [->|Hk].
      * rewrite Z.eqb_refl. simpl. rewrite IH. reflexivity.
      * replace (Z.of_nat (fst p) =? Z.of_nat k)%Z with false
          by (symmetry; apply Z.eqb_neq; lia).
        exact IH.
    + replace (Z.of_nat j' =? Z.of_nat j)%Z with false
        by (symmetry; apply Z.eqb_neq; lia).
      exact IH.
Qed.

Section FitStores.
Context {strategy : ItemSimilarity}.

Lemma fit_loop_triplets (dataset : csr_matrix) (js : list nat) :
  forall acc acc',
    fit_loop dataset js acc = Ok acc' ->
    aligned acc -> NoDup js ->
    aligned acc' /\
    (forall j, In j js ->
               exists w, compute_similarities (Some dataset) j = Ok w /\
                         forall k, (coo_sum (triplets_of acc') j k
                                    == coo_sum (triplets_of acc) j k + item w k)%Q) /\
    (forall j, ~ In j js ->
               forall k, (coo_sum (triplets_of acc') j k
                          == coo_sum (triplets_of acc) j k)%Q).
Proof.
  induction js as [|a rest IH]; intros acc acc' H Hal Hnd.
  - simpl in H. inversion H; subst acc'.
    split; [exact Hal|]. split; [intros j []|]. intros j _ k. reflexivity.
  - simpl in H. apply bind_Ok in H. destruct H as [w [Hw H]].
    inversion Hnd as [|x xs Hnotin Hnd']; subst.
    destruct (append_nonzero_triplets a w acc Hal) as [Hal1 Ht1].
    destruct (IH _ _ H Hal1 Hnd') as [Hal' [Hin Hout]].
    assert (Hstep : forall j k,
               (coo_sum (triplets_of (append_nonzero a w acc)) j k
                == coo_sum (triplets_of acc) j k + (if a =? j then item w k else 0))%Q).
    { intros j k. rewrite Ht1, coo_sum_app, coo_sum_new_triplets. reflexivity. }
    split; [exact Hal'|]. split.
    + intros j [->|Hj].
      * exists w. split; [exact Hw|]. intros k.
        rewrite (Hout j Hnotin k), Hstep, Nat.eqb_refl. reflexivity.
      * destruct (Hin j Hj) as [w' [Hw' Hsum]].
        exists w'. split; [exact Hw'|]. intros k.
        rewrite Hsum, Hstep.
        replace (a =? j) with false
          by (symmetry; apply Nat.eqb_neq; intros ->; contradiction).
        rewrite Qplus_0_r. reflexivity.
    + intros j Hj k.
      rewrite (Hout j (fun Hr => Hj (or_intror Hr)) k), Hstep.
      replace (a =? j) with false
        by (symmetry; apply Nat.eqb_neq; intros ->; apply Hj; now left).
      apply Qplus_0_r.
Qed.

(** every triplet comes from a non-zero entry of the similarity vector of
    its row *)
Let from_vector (dataset : csr_matrix) (t : (Z * Z) * Q) : Prop :=
  exists j k w, fst t = (Z.of_nat j, Z.of_nat k) /\
                compute_similarities (Some dataset) j = Ok w /\
                ~ (item w k == 0)%Q.

Lemma new_triplets_from_vector (dataset : csr_matrix) (j : nat) (w : ndarray) :
  compute_similarities (Some dataset) j = Ok w ->
  Forall (from_vector dataset) (new_triplets j w).
Proof.
  intros Hw. apply Forall_forall. intros t Ht.
  unfold new_triplets, sparsify in Ht.
  apply in_map_iff in Ht. destruct Ht as [kv [<- Hkv]].
  apply filter_In in Hkv. destruct Hkv as [Hkv Hnz].
  rewrite enumerate_items in Hkv.
  apply in_map_iff in Hkv. destruct Hkv as [i [<- _]].
  exists j, i, w. cbn [fst snd] in *.
  split; [reflexivity|]. split; [exact Hw|].
  apply Qneqb_true. exact Hnz.
Qed.

Lemma fit_loop_from_vector (dataset : csr_matrix) (js : list nat) :
  forall acc acc',
    fit_loop dataset js acc = Ok acc' ->
    aligned acc ->
    Forall (from_vector dataset) (triplets_of acc) ->
    Forall (from_vector dataset) (triplets_of acc').
Proof.
  induction js as [|a rest IH]; intros acc acc' H Hal Hall.
  - simpl in H. inversion H; subst. exact Hall.
  - simpl in H. apply bind_Ok in H. destruct H as [w [Hw H]].
    destruct (append_nonzero_triplets a w acc Hal) as [Hal1 Ht1].
    apply (IH _ _ H Hal1).
    rewrite Ht1. apply Forall_app. split; [exact Hall|].
    apply new_triplets_from_vector. exact Hw.
Qed.

Lemma fit_Ok (self self' : recommender) (dataset : csr_matrix) :
  fit self dataset = (self', Ok tt) ->
  exists acc m,
    fit_loop dataset (seq 0 (snd (shape dataset))) ([], [], []) = Ok acc /\
    csr_from_coo (fst (fst acc)) (snd (fst acc)) (snd acc)
                 (snd (shape dataset), snd (shape dataset)) = Ok m /\
    self' = mk_recommender (Some m).
Proof.
  unfold fit.
  destruct (bind (fit_loop dataset _ _) _) as [m|e] eqn:E; intros H; inversion H; subst.
  apply bind_Ok in E. destruct E as [[[dat row] col] [Hloop Hm]].
  exists (dat, row, col), m. auto.
Qed.

(** X15. After a successful [fit], row [j] of the similarity matrix is the
    vector [compute_similarities(dataset, j)]: for every item [j] of the
    dataset, entry [(j, k)] equals the [k]-th similarity of item [j] (zero
    beyond the end of the vector), and rows beyond the items are empty. *)
Theorem fit_stores_similarities (self self' : recommender) (dataset : csr_matrix) :
  fit self dataset = (self', Ok tt) ->
  exists m,
    similarity_matrix self' = Some m /\
    (forall j, j < snd (shape dataset) ->
               exists w, compute_similarities (Some dataset) j = Ok w /\
                         forall k, (entry m j k == item w k)%Q) /\
    (forall j k, snd (shape dataset) <= j -> (entry m j k == 0)%Q).
Proof.
  intros H. apply fit_Ok in H. destruct H as [acc [m [Hloop [Hm ->]]]].
  exists m. split; [reflexivity|].
  destruct (fit_loop_triplets _ _ _ _ Hloop) as [_ [Hin Hout]];
    [split; reflexivity|apply seq_NoDup|].
  split.
  - intros j Hj.
    destruct (Hin j) as [w [Hw Hsum]]; [apply in_seq; lia|].
    exists w. split; [exact Hw|]. intros k.
    rewrite (csr_from_coo_entry _ _ _ _ _ j k Hm).
    change (combine (combine (snd (fst acc)) (snd acc)) (fst (fst acc)))
      with (triplets_of acc).
    rewrite Hsum. apply Qplus_0_l.
  - intros j k Hj.
    rewrite (csr_from_coo_entry _ _ _ _ _ j k Hm).
    change (combine (combine (snd (fst acc)) (snd acc)) (fst (fst acc)))
      with (triplets_of acc).
    rewrite Hout; [reflexivity|].
    intros Hin'. apply in_seq in Hin'. lia.
Qed.

(** X16. [fit] never stores a zero: every entry stored in the similarity
    matrix after a successful [fit] has a non-zero value. *)
Theorem fit_stores_no_zero (self self' : recommender) (dataset m : csr_matrix)
        (j : nat) (p : nat * Q) :
  fit self dataset = (self', Ok tt) ->
  similarity_matrix self' = Some m ->
  In p (row_of m j) ->
  ~ (snd p == 0)%Q.
Proof.
  intros H Hm Hp. apply fit_Ok in H. destruct H as [acc [m' [Hloop [Hcsr ->]]]].
  cbn [similarity_matrix] in Hm. inversion Hm; subst m'. clear Hm.
  destruct (fit_loop_triplets _ _ _ _ Hloop) as [_ [Hin _]];
    [split; reflexivity|apply seq_NoDup|].
  pose proof (fit_loop_from_vector _ _ _ _ Hloop (conj eq_refl eq_refl)
                                   (Forall_nil _)) as Hprov.
  unfold csr_from_coo in Hcsr.
  destruct (forallb _ _); [|discriminate].
  inversion Hcsr; subst m. clear Hcsr.
  unfold row_of in Hp. cbn [rows fst snd] in Hp.
  fold (triplets_of acc) in Hp.
  destruct (Nat.lt_ge_cases j (snd (shape dataset))) as [Hj|Hj];
    [|rewrite nth_overflow in Hp by (rewrite length_map, length_seq; exact Hj);
      destruct Hp].
  erewrite nth_error_nth in Hp
    by (rewrite nth_error_map, nth_error_seq;
        apply Nat.ltb_lt in Hj; rewrite Hj; reflexivity).
  cbn [Nat.add] in Hp. unfold coo_row in Hp.
  apply in_flat_map in Hp. destruct Hp as [k [_ Hp]].
  destruct (coo_values (triplets_of acc) j k) as [|v vs] eqn:Ev; [destruct Hp|].
  destruct Hp as [<-|[]]. cbn [snd].
  assert (Ht : exists t, In t (triplets_of acc) /\ fst t = (Z.of_nat j, Z.of_nat k)).
  { assert (Hv : In v (coo_values (triplets_of acc) j k)) by (rewrite Ev; now left).
    unfold coo_values in Hv. apply in_map_iff in Hv. destruct Hv as [t [_ Ht]].
    apply filter_In in Ht. destruct Ht as [Ht Hkey].
    apply andb_true_iff in Hkey. destruct Hkey as [Hr Hc].
    apply Z.eqb_eq in Hr, Hc.
    exists t. split; [exact Ht|]. destruct t as [[r c] x]. simpl in *. congruence. }
  destruct Ht as [t [Ht Hkey]].
  rewrite Forall_forall in Hprov.
  destruct (Hprov t Ht) as [j0 [k0 [w0 [Hkey0 [Hw0 Hnz]]]]].
  rewrite Hkey in Hkey0. inversion Hkey0 as [[Ej Ek]].
  apply Nat2Z.inj in Ej, Ek. subst j0 k0.
  destruct (Hin j) as [w [Hw Hsum]]; [apply in_seq; lia|].
  assert (w = w0) by congruence. subst w0.
  specialize (Hsum k). unfold coo_sum at 1 in Hsum. rewrite Ev in Hsum.
  rewrite Hsum. intros Hzero. apply Hnz.
  rewrite <- Hzero. symmetry. apply Qplus_0_l.
Qed.

End FitStores.

Lemma fit_stores_similarities_witness :
  fit (strategy := constant_strategy [0; 1#2; 0]%Q) (mk_recommender None) one_user
    = (mk_recommender (Some (mk_csr (3, 3) [[(1, 1#2)]; [(1, 1#2)]; [(1, 1#2)]])), Ok tt) /\
  exists m,
    similarity_matrix (mk_recommender
                         (Some (mk_csr (3, 3) [[(1, 1#2)]; [(1, 1#2)]; [(1, 1#2)]])))
      = Some m /\
    (forall j, j < snd (shape one_user) ->
               exists w, compute_similarities (ItemSimilarity := constant_strategy [0; 1#2; 0]%Q)
                                              (Some one_user) j = Ok w /\
                         forall k, (entry m j k == item w k)%Q) /\
    (forall j k, snd (shape one_user) <= j -> (entry m j k == 0)%Q).
Proof.
  split; [reflexivity|].
  apply (fit_stores_similarities (strategy := constant_strategy [0; 1#2; 0]%Q)
                                 (mk_recommender None)).
  reflexivity.
Defined.

Lemma fit_stores_no_zero_witness :
  fit (strategy := constant_strategy [0; 1#2; 0]%Q) (mk_recommender None) one_user
    = (mk_recommender (Some (mk_csr (3, 3) [[(1, 1#2)]; [(1, 1#2)]; [(1, 1#2)]])), Ok tt) /\
  In (1, 1#2) (row_of (mk_csr (3, 3) [[(1, 1#2)]; [(1, 1#2)]; [(1, 1#2)]]) 2) /\
  ~ (snd (1, 1#2) == 0)%Q.
Proof.
  assert (Hin : In (1, 1#2) (row_of (mk_csr (3, 3) [[(1, 1#2)]; [(1, 1#2)]; [(1, 1#2)]]) 2))
    by (left; reflexivity).
  split; [reflexivity|]. split; [exact Hin|].
  exact (fit_stores_no_zero (strategy := constant_strategy [0; 1#2; 0]%Q)
                            (mk_recommender None) _ one_user _ 2 (1, 1#2)
                            eq_refl eq_refl Hin).
Defined.

(** ** What [load_similarity_matrix] stores, and how it fails *)

Lemma coo_values_of_lines {A : Type} (fr fc : A -> Z) (fd : A -> Q) (l : list A) (i k : nat) :
  coo_values (combine (combine (map fr l) (map fc l)) (map fd l)) i k
  = map fd (filter (fun x => (fr x =? Z.of_nat i)%Z && (fc x =? Z.of_nat k)%Z) l).
Proof.
  unfold coo_values. induction l as [|x t IH]; simpl; [reflexivity|].
  destruct ((fr x =? Z.of_nat i)%Z && (fc x =? Z.of_nat k)%Z); simpl; now rewrite IH.
Qed.

Lemma loadtxt_table (file : list (list Q)) (y : txt_array) (c : nat) (column : list Q) :
  loadtxt file = Ok y ->
  take_column y c = Ok column ->
  column = map (fun l => nth c l 0%Q) file.
Proof.
  unfold loadtxt. destruct file as [|first rest].
  - intros H. inversion H; subst. discriminate.
  - destruct (forallb _ rest); [|discriminate].
    destruct (_ || _); intros H; inversion H; subst; simpl; [discriminate|].
    destruct (c <? List.length first); [|discriminate].
    intros Hc. inversion Hc. reflexivity.
Qed.

Lemma load_similarity_matrix_csr (self self' : recommender) (file : list (list Q))
      (num_items : nat) (offset : Z) :
  load_similarity_matrix self file num_items offset = (self', Ok tt) ->
  exists m,
    self' = mk_recommender (Some m) /\
    csr_from_coo (map (fun l => nth 2 l 0%Q) file)
                 (map (fun l => (int32 (nth 0 l 0%Q) - offset)%Z) file)
                 (map (fun l => (int32 (nth 1 l 0%Q) - offset)%Z) file)
                 (num_items, num_items) = Ok m.
Proof.
  unfold load_similarity_matrix.
  destruct (bind (loadtxt file) _) as [m|e] eqn:E; intros H; inversion H; subst.
  exists m. split; [reflexivity|].
  apply bind_Ok in E. destruct E as [y [Hy E]].
  apply bind_Ok in E. destruct E as [row [Hrow E]].
  apply bind_Ok in E. destruct E as [col [Hcol E]].
  apply bind_Ok in E. destruct E as [dat [Hdat E]].
  rewrite (loadtxt_table _ _ _ _ Hy Hrow), (loadtxt_table _ _ _ _ Hy Hcol),
          (loadtxt_table _ _ _ _ Hy Hdat), !map_map in E.
  exact E.
Qed.

(** X17. After a successful [load_similarity_matrix], entry [(i, k)] of the
    matrix is the sum of the scores of the lines of the source whose two
    indices, less the offset, are [i] and [k]: zero for a cell no line
    mentions, the score itself for a cell mentioned once. *)
Theorem load_similarity_matrix_entries (self self' : recommender) (file : list (list Q))
        (num_items : nat) (offset : Z) :
  load_similarity_matrix self file num_items offset = (self', Ok tt) ->
  exists m,
    similarity_matrix self' = Some m /\
    forall i k,
      (entry m i k
       == fold_right Qplus 0 (map (fun l => nth 2 l 0) (filter (addresses offset i k) file)))%Q.
Proof.
  intros H. apply load_similarity_matrix_csr in H. destruct H as [m [-> Hm]].
  exists m. split; [reflexivity|]. intros i k.
  rewrite (csr_from_coo_entry _ _ _ _ _ i k Hm).
  unfold coo_sum. rewrite coo_values_of_lines. reflexivity.
Qed.

Lemma load_similarity_matrix_entries_witness :
  load_similarity_matrix (mk_recommender None) triplet_source 3 1
    = (mk_recommender (Some (mk_csr (3, 3) [[(1, 1#2)]; [(0, 1#2)]; []])), Ok tt) /\
  exists m,
    similarity_matrix (mk_recommender (Some (mk_csr (3, 3) [[(1, 1#2)]; [(0, 1#2)]; []])))
      = Some m /\
    forall i k,
      (entry m i k
       == fold_right Qplus 0 (map (fun l => nth 2 l 0)
                                  (filter (addresses 1 i k) triplet_source)))%Q.
Proof.
  split; [reflexivity|].
  apply (load_similarity_matrix_entries (mk_recommender None) _ triplet_source 3 1).
  reflexivity.
Defined.

Lemma loadtxt_three_columns (file : list (list Q)) :
  2 <= List.length file ->
  Forall (fun l => List.length l = 3) file ->
  loadtxt file = Ok (Table 3 file).
Proof.
  intros Hlen Hall.
  destruct file as [|first rest]; simpl in Hlen; [lia|].
  unfold loadtxt.
  inversion Hall as [|x t Hfirst Hrest]; subst.
  rewrite Hfirst.
  replace (forallb (fun l => List.length l =? 3) rest) with true.
  - destruct rest; simpl in Hlen; [lia|]. reflexivity.
  - symmetry. apply forallb_forall. intros l Hl.
    rewrite Forall_forall in Hrest. rewrite (Hrest l Hl). reflexivity.
Qed.

Lemma in_bounds_lines (num_items : nat) (offset : Z) (file : list (list Q)) :
  Forall (fun l => List.length l = 3) file ->
  forallb (coo_in_bounds (num_items, num_items))
          (combine (map (fun x => (int32 x - offset)%Z) (map (fun l => nth 0 l 0%Q) file))
                   (map (fun x => (int32 x - offset)%Z) (map (fun l => nth 1 l 0%Q) file)))
  = true ->
  Forall (line_in_range num_items offset) file.
Proof.
  induction 1 as [|line t H3 _ IH]; simpl; intros Hb; [constructor|].
  apply andb_true_iff in Hb. destruct Hb as [Hline Hrest].
  constructor; [|apply IH; exact Hrest].
  unfold coo_in_bounds in Hline. cbn [fst snd] in Hline.
  apply andb_true_iff in Hline. destruct Hline as [Hline Hc2].
  apply andb_true_iff in Hline. destruct Hline as [Hline Hc1].
  apply andb_true_iff in Hline. destruct Hline as [Hr1 Hr2].
  apply Z.leb_le in Hr1, Hc1. apply Z.ltb_lt in Hr2, Hc2.
  repeat split; assumption.
Qed.

(** X18. [load_similarity_matrix] either installs a matrix or changes
    nothing: on every failure the recommender is as before.  A source of
    one line fails with [IndexError] (the loaded array is not
    two-dimensional), and a source of three-column lines in which some
    index, less the offset, is negative or not below [num_items] fails
    with [ValueError]. *)
Theorem load_similarity_matrix_failures (self : recommender) (file : list (list Q))
        (num_items : nat) (offset : Z) :
  (forall self' e,
      load_similarity_matrix self file num_items offset = (self', Raise e) ->
      self' = self) /\
  (List.length file = 1 ->
   load_similarity_matrix self file num_items offset = (self, Raise IndexError)) /\
  (2 <= List.length file ->
   Forall (fun l => List.length l = 3) file ->
   ~ Forall (line_in_range num_items offset) file ->
   load_similarity_matrix self file num_items offset = (self, Raise ValueError)).
Proof.
  split; [|split].
  - unfold load_similarity_matrix.
    destruct (bind (loadtxt file) _) as [m|e0]; intros self' e H;
      inversion H; reflexivity.
  - intros Hlen. destruct file as [|line [|line' rest]]; try discriminate.
    reflexivity.
  - intros Hlen H3 Hout.
    unfold load_similarity_matrix.
    rewrite (loadtxt_three_columns file Hlen H3). cbn [bind take_column Nat.ltb Nat.leb].
    unfold csr_from_coo.
    destruct (forallb _ _) eqn:Hb; [|reflexivity].
    exfalso. apply Hout. eapply in_bounds_lines; eassumption.
Qed.

Lemma load_similarity_matrix_failures_witness :
  List.length [[1; 2; 1#2]]%Q = 1 /\
  load_similarity_matrix (mk_recommender (Some tied_similarity)) [[1; 2; 1#2]]%Q 3 1
    = (mk_recommender (Some tied_similarity), Raise IndexError) /\
  2 <= List.length triplet_source /\
  Forall (fun l => List.length l = 3) triplet_source /\
  ~ Forall (line_in_range 3 2) triplet_source /\
  load_similarity_matrix (mk_recommender (Some tied_similarity)) triplet_source 3 2
    = (mk_recommender (Some tied_similarity), Raise ValueError).
Proof.
  assert (H2 : 2 <= List.length triplet_source) by (simpl; lia).
  assert (H3 : Forall (fun l => List.length l = 3) triplet_source)
    by (repeat constructor).
  assert (Hout : ~ Forall (line_in_range 3 2) triplet_source).
  { intros H. inversion H as [|l t [_ [Hr _]] _]; subst.
    vm_compute in Hr. destruct Hr as [Hr _]. apply Hr. reflexivity. }
  split; [reflexivity|]. split.
  - exact (proj1 (proj2 (load_similarity_matrix_failures
                           (mk_recommender (Some tied_similarity)) [[1; 2; 1#2]]%Q 3 1))
                 eq_refl).
  - split; [exact H2|]. split; [exact H3|]. split; [exact Hout|].
    exact (proj2 (proj2 (load_similarity_matrix_failures
                           (mk_recommender (Some tied_similarity)) triplet_source 3 2))
                 H2 H3 Hout).
Defined.

(** ** Fitting, then recommending *)

Section FitThenRecommend.
Context {strategy : ItemSimilarity}.

(** X19. After a successful [fit(dataset)] the recommender serves the same
    dataset: [recommend_items] returns for every user of the dataset,
    [batch_recommend_items] returns one list per user, and
    [get_similar_items] returns for every item, without a dataset
    argument. *)
Theorem fit_then_recommend (self self' : recommender) (dataset : csr_matrix) :
  fit self dataset = (self', Ok tt) ->
  (forall u max_items return_scores,
      u < fst (shape dataset) ->
      exists l, recommend_items self' dataset u max_items return_scores = Ok l) /\
  (forall max_items return_scores,
      exists ls, batch_recommend_items self' dataset max_items return_scores = Ok ls /\
                 List.length ls = fst (shape dataset)) /\
  (forall j k,
      j < snd (shape dataset) ->
      exists l, get_similar_items self' j k None = Ok l).
Proof.
  intros H. apply fit_Ok in H. destruct H as [acc [m [_ [Hm ->]]]].
  apply csr_from_coo_shape in Hm.
  split; [|split].
  - intros u max_items return_scores Hu.
    apply recommend_items_returns with (sm := m); [reflexivity| |exact Hu].
    rewrite Hm. reflexivity.
  - intros max_items return_scores.
    apply batch_recommend_items_returns with (sm := m); [reflexivity|].
    rewrite Hm. reflexivity.
  - intros j k Hj. unfold get_similar_items, getrow. cbn [similarity_matrix].
    rewrite Hm. cbn [fst]. apply Nat.ltb_lt in Hj. rewrite Hj. cbn [bind]. eauto.
Qed.

End FitThenRecommend.

Lemma fit_then_recommend_witness :
  fit (strategy := constant_strategy [0; 1#2; 0]%Q) (mk_recommender None) one_user
    = (mk_recommender (Some (mk_csr (3, 3) [[(1, 1#2)]; [(1, 1#2)]; [(1, 1#2)]])), Ok tt) /\
  0 < fst (shape one_user) /\
  (exists l, recommend_items
               (mk_recommender (Some (mk_csr (3, 3) [[(1, 1#2)]; [(1, 1#2)]; [(1, 1#2)]])))
               one_user 0 10 true = Ok l) /\
  2 < snd (shape one_user) /\
  (exists l, get_similar_items (strategy := constant_strategy [0; 1#2; 0]%Q)
               (mk_recommender (Some (mk_csr (3, 3) [[(1, 1#2)]; [(1, 1#2)]; [(1, 1#2)]])))
               2 5 None = Ok l).
Proof.
  assert (H0 : 0 < fst (shape one_user)) by (simpl; lia).
  assert (H2 : 2 < snd (shape one_user)) by (simpl; lia).
  destruct (fit_then_recommend (strategy := constant_strategy [0; 1#2; 0]%Q)
              (mk_recommender None) _ one_user eq_refl) as [Hrec [_ Hsim]].
  split; [reflexivity|]. split; [exact H0|]. split; [exact (Hrec 0 10 true H0)|].
  split; [exact H2|]. exact (Hsim 2 5 H2).
Defined.

(** ** What the scores are *)























